(** * Acquisitions API: authentication, session cookie and user-management guards

    A shallow embedding of the JavaScript sources
    [src/utils/jwt.js], [src/utils/cookies.js],
    [src/middleware/auth.middleware.js], [src/routes/users.routes.js],
    [src/controllers/users.controller.js] and [src/services/users.service.js],
    followed by the properties the specification states about them.

    JavaScript objects are finite maps from property names to values,
    exceptions are an explicit [Throw] result, the clock and the process
    environment are passed as arguments, and the database table is a list of
    rows. *)

From Stdlib Require Import ZArith NArith Ascii.
From stdpp Require Import base option list gmap strings pretty.

Open Scope string_scope.
Open Scope Z_scope.

(** ** JavaScript values *)

(** The values that travel through this code: token claims, request bodies,
    database columns.  [JNum] holds integer-valued numbers (ids, timestamps in
    seconds or milliseconds); [JNaN] is the number NaN; [JDate] is a [Date]
    object holding its epoch milliseconds. *)
#[warnings="-register-all"]
Inductive jsval :=
  | JUndefined
  | JNull
  | JBool (b : bool)
  | JNum (n : Z)
  | JNaN
  | JStr (s : string)
  | JDate (t : Z)
  | JObj (props : gmap string jsval).

Abbreviation jsobj := (gmap string jsval).

(** ToBoolean: what [!v], [v || w] and [v && w] test. *)
Definition truthy (v : jsval) : bool :=
  match v with
  | JUndefined | JNull | JNaN => false
  | JBool b => b
  | JNum n => negb (n =? 0)%Z
  | JStr s => negb (String.eqb s "")
  | JDate _ | JObj _ => true
  end.

(** [v || w] *)
Definition js_or (v w : jsval) : jsval := if truthy v then v else w.

(** [o.name] on an object: [undefined] when the property is missing. *)
Definition prop (o : jsobj) (name : string) : jsval :=
  default JUndefined (o !! name).

(** [typeof v === 'number'] *)
Definition is_number (v : jsval) : bool :=
  match v with JNum _ | JNaN => true | _ => false end.

Definition is_undefined (v : jsval) : bool :=
  match v with JUndefined => true | _ => false end.

(** [v === w].  Two objects are equal only when they are the same reference;
    the objects compared here always come from different places (a decoded
    claim against a literal), so they compare unequal. *)
Definition strict_equal (v w : jsval) : bool :=
  match v, w with
  | JUndefined, JUndefined => true
  | JNull, JNull => true
  | JBool a, JBool b => Bool.eqb a b
  | JNum a, JNum b => (a =? b)%Z
  | JStr a, JStr b => String.eqb a b
  | _, _ => false
  end.

(** SameValueZero, the comparison of [Array.prototype.includes]: as [===]
    but NaN equals NaN. *)
Definition same_value_zero (v w : jsval) : bool :=
  match v, w with
  | JNaN, JNaN => true
  | _, _ => strict_equal v w
  end.

(** [arr.includes(v)] *)
Definition includes (arr : list jsval) (v : jsval) : bool :=
  existsb (fun a => same_value_zero a v) arr.

(** [a > b] and [a >= b] on numbers; any comparison with NaN is false. *)
Definition num_gt (a b : jsval) : bool :=
  match a, b with JNum x, JNum y => (y <? x)%Z | _, _ => false end.

Definition num_ge (a b : jsval) : bool :=
  match a, b with JNum x, JNum y => (y <=? x)%Z | _, _ => false end.

(** ** Exceptions *)

Inductive js_error :=
  | Error (message : string)
  | TypeError (message : string)
  | JsonWebTokenError (message : string)
  | NotBeforeError (message : string)
  | TokenExpiredError (message : string).

Definition error_message (e : js_error) : string :=
  match e with
  | Error m | TypeError m | JsonWebTokenError m
  | NotBeforeError m | TokenExpiredError m => m
  end.

(** The result of running a function body: a returned value or a thrown
    exception. *)
Inductive completion (A : Type) :=
  | Return (a : A)
  | Throw (e : js_error).
Arguments Return {A} a.
Arguments Throw {A} e.

#[global] Instance completion_ret : MRet completion := fun _ a => Return a.
#[global] Instance completion_bind : MBind completion := fun _ _ k c =>
  match c with
  | Return a => k a
  | Throw e => Throw e
  end.

(** [try { body } catch (e) { handler(e) }] *)
Definition try_catch {A} (body : completion A) (handler : js_error → completion A)
  : completion A :=
  match body with
  | Return a => Return a
  | Throw e => handler e
  end.

(** The result of [schema.safeParse(input)]: the parsed data, or the
    validation error as [formatValidationError] renders it. *)
Inductive safeParse (A : Type) :=
  | ParseOk (data : A)
  | ParseFail (details : jsval).
Arguments ParseOk {A} data.
Arguments ParseFail {A} details.

(** ** The process environment *)

Record process_env := {
  NODE_ENV : option string;
  env_JWT_SECRET : option string;
}.

(** [process.env.NAME || fallback]: an unset or empty variable gives the
    fallback. *)
Definition env_or (v : option string) (fallback : string) : string :=
  match v with
  | Some s => if String.eqb s "" then fallback else s
  | None => fallback
  end.

(** ** The [ms] and [jsonwebtoken] packages

    [jwt.js] delegates to the [jsonwebtoken] package, which is not part of
    the repository.  Its [sign] and [verify] are modelled here at the level of
    the claims object: a compact token is kept in parsed form (algorithm,
    claims, signature) rather than as its base64url text, and the keyed hash
    is a parameter of the development. *)

Definition is_digit (c : ascii) : bool :=
  let n := N_of_ascii c in (48 <=? n)%N && (n <=? 57)%N.

Fixpoint read_digits (acc : Z) (s : string) : Z * string :=
  match s with
  | String c rest =>
      if is_digit c
      then read_digits (10 * acc + Z.of_N (N_of_ascii c) - 48) rest
      else (acc, s)
  | EmptyString => (acc, s)
  end.

(** Milliseconds per unit, for the short unit names of [ms]. *)
Definition ms_unit (u : string) : option Z :=
  if String.eqb u "" then Some 1
  else if String.eqb u "ms" then Some 1
  else if String.eqb u "s" then Some 1000
  else if String.eqb u "m" then Some 60000
  else if String.eqb u "h" then Some 3600000
  else if String.eqb u "d" then Some 86400000
  else if String.eqb u "w" then Some 604800000
  else None.

(** [ms('1d')]: a run of digits followed by a unit. *)
Definition ms (s : string) : option Z :=
  match s with
  | String c _ =>
      if is_digit c
      then let '(n, u) := read_digits 0 s in (fun k => n * k) <$> ms_unit u
      else None
  | EmptyString => None
  end.

(** [timespan(time, iat)] of jsonwebtoken: seconds since the epoch at which
    a span written as an [ms] string ends. *)
Definition timespan (time : string) (iat : Z) : option Z :=
  (fun millis => iat + millis / 1000) <$> ms time.

(** A signed token in parsed form. *)
Record jws := {
  jws_alg : string;
  jws_payload : jsobj;
  jws_signature : option string;  (* [None]: the signature part is empty *)
}.

(** A string on the wire (a cookie value): either the compact serialisation
    of a [jws], or any other text. *)
Inductive wire :=
  | Text (s : string)
  | Compact (t : jws).

(** [!token] for a string. *)
Definition wire_truthy (w : wire) : bool :=
  match w with
  | Text s => negb (String.eqb s "")
  | Compact _ => true
  end.

(** A registered claim must be a number when it is present. *)
Definition claim_is_number (payload : jsobj) (name : string) : bool :=
  match payload !! name with
  | Some v => is_number v
  | None => true
  end.

Section Acquisitions.

#[local] Set Default Proof Using "Type".

(** The keyed hash of the signature: algorithm name, key and signed claims
    to signature text.  Nothing is assumed about it beyond being a
    function. *)
Variable hmac : string → string → jsobj → string.

(** [jwt.sign(payload, secret, { expiresIn })] for an object payload, at
    clock reading [now] (seconds).  The package writes the payload as JSON:
    the model is for payloads whose values JSON carries as they are (null,
    booleans, integers, strings, objects of these).  The error texts are
    those of the package with their inner quotation marks left out. *)
Definition jwt_sign (now : Z) (payload : jsobj) (secret expiresIn : string)
  : completion wire :=
  if String.eqb secret "" then Throw (Error "secretOrPrivateKey must have a value")
  else if negb (claim_is_number payload "iat") then
    Throw (Error "iat should be a number of seconds")
  else if negb (claim_is_number payload "exp") then
    Throw (Error "exp should be a number of seconds")
  else if negb (claim_is_number payload "nbf") then
    Throw (Error "nbf should be a number of seconds")
  else if negb (is_undefined (prop payload "exp")) then
    Throw (Error "Bad options.expiresIn option the payload already has an exp property.")
  else
    (* payload.iat || Math.floor(Date.now() / 1000) *)
    let timestamp :=
      match prop payload "iat" with
      | JNum iat => if (iat =? 0)%Z then now else iat
      | _ => now
      end in
    match timespan expiresIn timestamp with
    | Some exp =>
        let claims := <["exp" := JNum exp]> (<["iat" := JNum timestamp]> payload) in
        Return (Compact {| jws_alg := "HS256"; jws_payload := claims;
                           jws_signature := Some (hmac "HS256" secret claims) |})
    | None =>
        Throw (Error "expiresIn should be a number of seconds or string representing a timespan")
    end.

(** The checks of [jwt.verify] on the time claims of a payload whose
    signature has been accepted: [nbf], then [exp]. *)
Definition verify_time_claims (now : Z) (payload : jsobj) : completion jsobj :=
  let nbf := prop payload "nbf" in
  let exp := prop payload "exp" in
  if negb (is_undefined nbf) && negb (is_number nbf) then
    Throw (JsonWebTokenError "invalid nbf value")
  else if negb (is_undefined nbf) && num_gt nbf (JNum now) then
    Throw (NotBeforeError "jwt not active")
  else if negb (is_undefined exp) && negb (is_number exp) then
    Throw (JsonWebTokenError "invalid exp value")
  else if negb (is_undefined exp) && num_ge (JNum now) exp then
    Throw (TokenExpiredError "jwt expired")
  else Return payload.

(** [jwt.verify(token, secret)] at clock reading [now] (seconds): structure,
    signature, then the time claims, in the package's order. *)
Definition jwt_verify (now : Z) (token : wire) (secret : string)
  : completion jsobj :=
  match token with
  | Text s =>
      if String.eqb s "" then Throw (JsonWebTokenError "jwt must be provided")
      else Throw (JsonWebTokenError "jwt malformed")
  | Compact t =>
      match jws_signature t with
      | None => Throw (JsonWebTokenError "jwt signature is required")
      | Some signature =>
          if String.eqb secret "" then
            Throw (JsonWebTokenError "secret or public key must be provided")
          else if negb (bool_decide (jws_alg t ∈ ["HS256"; "HS384"; "HS512"])) then
            Throw (JsonWebTokenError "invalid algorithm")
          else if negb (String.eqb (hmac (jws_alg t) secret (jws_payload t)) signature) then
            Throw (JsonWebTokenError "invalid signature")
          else verify_time_claims now (jws_payload t)
      end
  end.

(** ** [src/utils/jwt.js] *)

Definition JWT_SECRET (env : process_env) : string :=
  env_or (env_JWT_SECRET env) "your-secret-key-please-change-in-production".

Definition JWT_EXPIRES_IN : string := "1d".

(** [jwttoken.sign]: whatever the package throws is replaced by one fixed
    error. *)
Definition jwttoken_sign (env : process_env) (now : Z) (payload : jsobj)
  : completion wire :=
  try_catch (jwt_sign now payload (JWT_SECRET env) JWT_EXPIRES_IN)
            (fun _ => Throw (Error "failed to authenticate token")).

(** [jwttoken.verify]: likewise. *)
Definition jwttoken_verify (env : process_env) (now : Z) (token : wire)
  : completion jsobj :=
  try_catch (jwt_verify now token (JWT_SECRET env))
            (fun _ => Throw (Error "failed to authenticate token")).

(** ** [src/utils/cookies.js] *)

(** One call of [res.cookie] or [res.clearCookie] recorded on the response. *)
Inductive cookie_call :=
  | SetCookie (name : string) (value : wire) (options : jsobj)
  | ClearCookie (name : string) (options : jsobj).

Record response := { cookie_calls : list cookie_call }.

Definition cookies_getOptions (env : process_env) : jsobj :=
  {[ "httpOnly" := JBool true;
     "secure" := JBool (bool_decide (NODE_ENV env = Some "production"));
     "sameSite" := JStr "strict";
     "maxAge" := JNum (15 * 60 * 1000) ]}.

(** [{ ...a, ...b }]: the properties of [b] win. *)
Definition spread (a b : jsobj) : jsobj := b ∪ a.

Definition cookies_set (env : process_env) (res : response) (name : string)
    (value : wire) (options : jsobj) : response :=
  {| cookie_calls :=
       cookie_calls res ++ [SetCookie name value (spread (cookies_getOptions env) options)] |}.

Definition cookies_clear (env : process_env) (res : response) (name : string)
    (options : jsobj) : response :=
  {| cookie_calls :=
       cookie_calls res ++ [ClearCookie name (spread (cookies_getOptions env) options)] |}.

(** The default export of [express/lib/request.js], which [cookies.js]
    imports under the name [req]: the prototype object of requests.  It
    carries the request methods and getters and has no [cookies] property
    ([cookie-parser] assigns [cookies] on each incoming request object). *)
Definition express_request_cookies : option (gmap string wire) := None.

(** [cookies.get(res, name)] returns [req.cookies[name]] for the imported
    [req]; its first argument is not used. *)
Definition cookies_get (res : response) (name : string) : completion (option wire) :=
  match express_request_cookies with
  | Some jar => Return (jar !! name)
  | None => Throw (TypeError "Cannot read properties of undefined")
  end.

(** ** [src/middleware/auth.middleware.js] *)

(** The normalised [req.user]. *)
Record user := {
  user_id : jsval;     (* id *)
  user_email : jsval;  (* email *)
  user_role : jsval;   (* role *)
}.

Record request := {
  req_cookies : option (gmap string wire);  (* req.cookies *)
  req_user : option user;                   (* req.user *)
  req_params : jsval;                       (* req.params *)
  req_body : jsval;                         (* req.body *)
  req_ip : string;                          (* req.ip *)
}.

Definition set_user (u : option user) (req : request) : request :=
  {| req_cookies := req_cookies req; req_user := u;
     req_params := req_params req; req_body := req_body req;
     req_ip := req_ip req |}.

(** What a middleware or handler does with the request: call [next()], call
    [next(e)], or send a response. *)
Inductive outcome :=
  | Next
  | NextError (e : js_error)
  | Respond (status : Z) (body : jsval).

(** [req.cookies?.token] *)
Definition cookie_token (req : request) : option wire :=
  req_cookies req ≫= (fun jar => jar !! "token").

Definition attachUserFromToken (env : process_env) (now : Z) (req : request)
  : request * outcome :=
  match cookie_token req with
  | None => (set_user None req, Next)
  | Some token =>
      if negb (wire_truthy token) then (set_user None req, Next)
      else
        match jwttoken_verify env now token with
        | Return decoded =>
            (set_user (Some {| user_id := prop decoded "id";
                               user_email := prop decoded "email";
                               user_role := js_or (prop decoded "role") (JStr "user") |})
                      req,
             Next)
        | Throw e => (set_user None req, Next)
        end
  end.

Definition error_body (msg : string) : jsval := JObj {[ "error" := JStr msg ]}.

Definition requireAuth (req : request) : outcome :=
  match req_user req with
  | None => Respond 401 (error_body "Authentication required")
  | Some _ => Next
  end.

Definition requireRoles (allowedRoles : list jsval) (req : request) : outcome :=
  match req_user req with
  | None => Respond 401 (error_body "Authentication required")
  | Some u =>
      if negb (includes allowedRoles (user_role u))
      then Respond 403 (error_body "Forbidden: insufficient permissions")
      else Next
  end.

(** ** The [users] table and the query builder

    The table is the list of its rows; a row maps column names to values.
    The database may refuse a statement (a violated constraint): which
    tables it refuses is a parameter, and a refused statement changes
    nothing. *)

Variable db_rejects : list jsobj → bool.

(** [eq(users.id, id)] *)
Definition has_id (id : Z) (r : jsobj) : bool :=
  strict_equal (prop r "id") (JNum id).

(** [db.select().from(users).where(eq(users.id, id)).limit(1)] *)
Definition select_by_id (db : list jsobj) (id : Z) : list jsobj :=
  take 1 (List.filter (has_id id) db).

(** The object built from the listed columns of a row: the literal
    [{ id: row.id, ... }] and the [.returning({ id: users.id, ... })]
    clause. *)
Definition columns (names : list string) (r : jsobj) : jsobj :=
  list_to_map ((fun c => (c, prop r c)) <$> names).

Definition public_columns : list string :=
  ["id"; "email"; "name"; "role"; "created_at"; "updated_at"].

(** The query builder leaves out of [SET] the properties whose value is
    [undefined]. *)
Definition mapUpdateSet (values : jsobj) : jsobj :=
  filter (fun kv => is_undefined kv.2 = false) values.

(** [db.update(users).set(values).where(eq(users.id, id)).returning(...)]:
    the new table and the returned rows. *)
Definition db_update (db : list jsobj) (id : Z) (values : jsobj)
  : completion (list jsobj * list jsobj) :=
  let assignments := mapUpdateSet values in
  if Nat.eqb (size assignments) 0 then Throw (Error "No values to set")
  else
    let write r := if has_id id r then assignments ∪ r else r in
    let db' := write <$> db in
    if db_rejects db' then Throw (Error "Failed query")
    else Return (db', columns public_columns <$> List.filter (has_id id) db').

(** [db.delete(users).where(eq(users.id, id)).returning(...)] *)
Definition db_delete (db : list jsobj) (id : Z) : list jsobj * list jsobj :=
  (List.filter (fun r => negb (has_id id r)) db,
   columns public_columns <$> List.filter (has_id id) db).

(** ** [src/services/users.service.js] *)

Definition allowedFields : list string := ["name"; "email"; "role"].

(** The loop that copies the allowed own properties of [updates]. *)
Definition updateData (updates : jsobj) : jsobj :=
  foldl (fun acc field =>
           match updates !! field with
           | Some v => <[field := v]> acc
           | None => acc
           end)
        ∅ allowedFields.

(** The service [updateUser(id, updates)], imported by the controller as
    [updateUserService]; [date_now] is the reading of [new Date()].  The
    result is the table afterwards and the returned user or thrown error. *)
Definition updateUserService (date_now : Z) (id : Z) (updates : jsobj)
    (db : list jsobj) : list jsobj * completion jsobj :=
  match head (select_by_id db id) with
  | None => (db, Throw (Error "User not found"))
  | Some existingUser =>
      let data := updateData updates in
      if Nat.eqb (size data) 0 then
        (db, Return (columns public_columns existingUser))
      else
        match db_update db id (spread data {[ "updated_at" := JDate date_now ]}) with
        | Return (db', returned) =>
            match head returned with
            | Some updatedUser => (db', Return updatedUser)
            | None => (db', Throw (TypeError "Cannot read properties of undefined"))
            end
        | Throw e => (db, Throw e)
        end
  end.

(** The service [deleteUser(id)], imported as [deleteUserService]. *)
Definition deleteUserService (id : Z) (db : list jsobj)
  : list jsobj * completion jsobj :=
  let '(db', returned) := db_delete db id in
  match head returned with
  | Some deletedUser => (db', Return deletedUser)
  | None => (db', Throw (Error "User not found"))
  end.

(** ** [src/controllers/users.controller.js] *)

(** The two schemas of [src/validations/users.validation.js], which is not
    among the sources: [userIdSchema] yields the numeric [id], and
    [updateUserSchema] the object of updates. *)
Variable userIdSchema : jsval → safeParse Z.
Variable updateUserSchema : jsval → safeParse jsobj.

(** The conversion of a string to a number by [Number(...)], left to the
    language. *)
Variable StringToNumber : string → jsval.

(** [Number(v)] *)
Definition Number (v : jsval) : jsval :=
  match v with
  | JUndefined => JNaN
  | JNull => JNum 0
  | JBool b => JNum (if b then 1 else 0)
  | JNum n => JNum n
  | JNaN => JNaN
  | JStr s => StringToNumber s
  | JDate t => JNum t
  | JObj _ => JNaN
  end.

Definition validation_failed (details : jsval) : outcome :=
  Respond 400 (JObj {[ "error" := JStr "Validation failed"; "details" := details ]}).

(** What the controllers do with the service's result: the [res.json] after
    the call, and the [catch] block around it. *)
Definition reply (message : string) (result : completion jsobj) : outcome :=
  match result with
  | Return u => Respond 200 (JObj {[ "message" := JStr message; "user" := JObj u ]})
  | Throw e =>
      if String.eqb (error_message e) "User not found"
      then Respond 404 (error_body "User not found")
      else NextError e
  end.

Definition updateUser (date_now : Z) (req : request) (db : list jsobj)
  : list jsobj * outcome :=
  match userIdSchema (req_params req) with
  | ParseFail details => (db, validation_failed details)
  | ParseOk id =>
      match updateUserSchema (req_body req) with
      | ParseFail details => (db, validation_failed details)
      | ParseOk updates =>
          match req_user req with
          | None => (db, Respond 401 (error_body "Authentication required"))
          | Some u =>
              let authenticatedUserId := Number (user_id u) in
              let isAdmin := strict_equal (user_role u) (JStr "admin") in
              let isSelf := strict_equal authenticatedUserId (JNum id) in
              if negb isSelf && negb isAdmin then
                (db, Respond 403 (error_body "Not authorized to update this user"))
              else if truthy (prop updates "role") && negb isAdmin then
                (db, Respond 403 (error_body "Only admin users can change roles"))
              else
                let '(db', result) := updateUserService date_now id updates db in
                (db', reply "User updated successfully" result)
          end
      end
  end.

Definition deleteUser (date_now : Z) (req : request) (db : list jsobj)
  : list jsobj * outcome :=
  match userIdSchema (req_params req) with
  | ParseFail details => (db, validation_failed details)
  | ParseOk id =>
      match req_user req with
      | None => (db, Respond 401 (error_body "Authentication required"))
      | Some u =>
          let authenticatedUserId := Number (user_id u) in
          let isAdmin := strict_equal (user_role u) (JStr "admin") in
          let isSelf := strict_equal authenticatedUserId (JNum id) in
          if negb isSelf && negb isAdmin then
            (db, Respond 403 (error_body "Not authorized to delete this user"))
          else
            let '(db', result) := deleteUserService id db in
            (db', reply "User deleted successfully" result)
      end
  end.

(** ** [src/routes/users.routes.js] *)

Definition handler : Type := Z → request → list jsobj → list jsobj * outcome.

(** A route-level middleware that only inspects the request. *)
Definition guard (g : request → outcome) : handler :=
  fun _ req db => (db, g req).

(** The handlers of a route run in order; each runs only when the one before
    it called [next()]. *)
Fixpoint run_route (handlers : list handler) (date_now : Z) (req : request)
    (db : list jsobj) : list jsobj * outcome :=
  match handlers with
  | [] => (db, Next)
  | h :: rest =>
      match h date_now req db with
      | (db', Next) => run_route rest date_now req db'
      | stopped => stopped
      end
  end.

(** [router.put('/:id', requireAuth, updateUser)] *)
Definition router_put_id : list handler :=
  [guard requireAuth; updateUser].

(** [router.delete('/:id', requireAuth, requireRoles('admin'), deleteUser)] *)
Definition router_delete_id : list handler :=
  [guard requireAuth; guard (requireRoles [JStr "admin"]); deleteUser].

(** ** The rest of [src/services/users.service.js] *)

(** The service [getAllUsers()]. *)
Definition getAllUsers (db : list jsobj) : completion (list jsobj) :=
  Return (columns public_columns <$> db).

(** The service [getUserById(id)], imported by the controller as
    [getUserByIdService]: the user, or [null] (here [None]). *)
Definition getUserByIdService (id : Z) (db : list jsobj)
  : completion (option jsobj) :=
  Return (head (columns public_columns <$> select_by_id db id)).

(** ** The rest of [src/controllers/users.controller.js] *)

(** An array as the object it is: its elements under their indices, and
    [length]. *)
Definition js_array (elements : list jsval) : jsval :=
  JObj (<["length" := JNum (Z.of_nat (length elements))]>
          (list_to_map (imap (fun i v => (pretty i, v)) elements))).

Definition fetchAllUsers (date_now : Z) (req : request) (db : list jsobj)
  : list jsobj * outcome :=
  match getAllUsers db with
  | Return allUsers =>
      (db, Respond 200 (JObj {[ "message" := JStr "Successfully retrieved users";
                                "users" := js_array (JObj <$> allUsers);
                                "count" := JNum (Z.of_nat (length allUsers)) ]}))
  | Throw e => (db, NextError e)
  end.

Definition getUserById (date_now : Z) (req : request) (db : list jsobj)
  : list jsobj * outcome :=
  match userIdSchema (req_params req) with
  | ParseFail details => (db, validation_failed details)
  | ParseOk id =>
      match getUserByIdService id db with
      | Return (Some found) =>
          (db, Respond 200 (JObj {[ "message" := JStr "Successfully retrieved user";
                                    "user" := JObj found ]}))
      | Return None => (db, Respond 404 (error_body "User not found"))
      | Throw e => (db, NextError e)
      end
  end.

(** ** The rest of [src/routes/users.routes.js] *)

(** [router.get('/', requireAuth, requireRoles('admin'), fetchAllUsers)] *)
Definition router_get_all : list handler :=
  [guard requireAuth; guard (requireRoles [JStr "admin"]); fetchAllUsers].

(** [router.get('/:id', requireAuth, getUserById)] *)
Definition router_get_id : list handler :=
  [guard requireAuth; getUserById].

(** ** [src/services/auth.service.js] *)

(** The [bcrypt] package: [hash(data, 10)] draws a salt, so it is a function
    of the randomness it draws and of the data; [compare(data, hash)].
    Either may throw. *)
Variable bcrypt_hash : string → string → completion string.
Variable bcrypt_compare : string → string → completion bool.

Definition hashPassword (entropy password : string) : completion string :=
  try_catch (bcrypt_hash entropy password)
            (fun _ => Throw (Error "Error hashing")).

(** [comparePassword(password, hash)]; the hash is what the [password]
    column holds, and [bcrypt.compare] throws on what is not a string. *)
Definition comparePassword (password : string) (hash : jsval) : completion bool :=
  try_catch match hash with
            | JStr h => bcrypt_compare password h
            | _ => Throw (Error "data and hash must be strings")
            end
            (fun _ => Throw (Error "Error comparing password")).

(** [eq(users.email, email)] *)
Definition has_email (email : string) (r : jsobj) : bool :=
  strict_equal (prop r "email") (JStr email).

(** [db.select().from(users).where(eq(users.email, email)).limit(1)] *)
Definition select_by_email (db : list jsobj) (email : string) : list jsobj :=
  take 1 (List.filter (has_email email) db).

(** [db.insert(users).values(values).returning(...)]: the table appends the
    row, filling the columns left out with their defaults: [id] from the
    sequence (its next value is [serial]), [role] ['user'], and the two
    timestamps [now()].  The result is the new table and the new row. *)
Definition db_insert (db : list jsobj) (serial date_now : Z) (values : jsobj)
  : completion (list jsobj * jsobj) :=
  let row :=
    filter (fun kv => is_undefined kv.2 = false) values ∪
    {[ "id" := JNum serial; "role" := JStr "user";
       "created_at" := JDate date_now; "updated_at" := JDate date_now ]} in
  if db_rejects (db ++ [row])%list then Throw (Error "Failed query")
  else Return ((db ++ [row])%list, row).

Definition created_columns : list string :=
  ["id"; "name"; "email"; "role"; "created_at"].

(** [createUser({ name, email, password, role = 'user' })]; a [role] left
    out is [None]. *)
Definition createUser (entropy : string) (serial date_now : Z)
    (name email password : string) (role : option string) (db : list jsobj)
  : list jsobj * completion jsobj :=
  if (0 <? length (select_by_email db email))%nat then
    (db, Throw (Error "User already exists"))
  else
    match hashPassword entropy password with
    | Throw e => (db, Throw e)
    | Return passwordHash =>
        match db_insert db serial date_now
                {[ "name" := JStr name; "email" := JStr email;
                   "password" := JStr passwordHash;
                   "role" := JStr (default "user" role) ]} with
        | Return (db', newUser) => (db', Return (columns created_columns newUser))
        | Throw e => (db, Throw e)
        end
    end.

(** [authenticateUser({ email, password })] *)
Definition authenticateUser (email password : string) (db : list jsobj)
  : completion jsobj :=
  match head (select_by_email db email) with
  | None => Throw (Error "User not found")
  | Some found =>
      match comparePassword password (prop found "password") with
      | Return isMatch =>
          if negb isMatch then Throw (Error "Invalid credentials")
          else Return (columns created_columns found)
      | Throw e => Throw e
      end
  end.

(** ** Admission control

    [src/middleware/security.middleware.js] and [src/config/arcjet.js] are
    not among the sources; the definitions of this part follow the
    specification (sections 3, 4.4 and 4.5) and the description of the
    middleware in AGENTS.md. *)

(** Modelled from the spec: the role of an Identity, a closed enumeration
    (section 3); the security middleware that reads it is missing. *)
Inductive Role := Guest | User | Admin.

(** Modelled from the spec: the resolved Identity of section 3 (subject id,
    email, role), as the missing security middleware receives it. *)
Record Identity := {
  subject_id : Z;
  identity_email : string;
  identity_role : Role;
}.

(** Modelled from the spec: the role named by a role claim; the missing
    security middleware looks the tier up by this name. *)
Definition role_of_claim (v : jsval) : option Role :=
  match v with
  | JStr s =>
      if String.eqb s "admin" then Some Admin
      else if String.eqb s "user" then Some User
      else if String.eqb s "guest" then Some Guest
      else None
  | _ => None
  end.

(** Modelled from the spec: the RateLimitTier table of the missing security
    middleware, requests per window: guest 5, user 10, admin 20. *)
Definition tier_limit (tier : Role) : nat :=
  match tier with
  | Guest => 5
  | User => 10
  | Admin => 20
  end%nat.

(** Modelled from the spec: tier selection of the missing security
    middleware; absence of identity means the guest tier. *)
Definition select_tier (identity : option Identity) : Role :=
  match identity with
  | Some i => identity_role i
  | None => Guest
  end.

(** Modelled from the spec: the window length of the missing rate limiter,
    one minute, in seconds. *)
Definition window_length : Z := 60.

(** Modelled from the spec: the RateWindowCounter of the missing rate
    limiter: the start of the key's current window and the count in it. *)
Record RateWindowCounter := {
  window_start : Z;
  count : nat;
}.

(** Modelled from the spec: the key of a counter in the missing rate
    limiter: the subject id when there is an identity, else the caller's
    IP. *)
Definition rate_key (identity : option Identity) (ip : string) : Z + string :=
  match identity with
  | Some i => inl (subject_id i)
  | None => inr ip
  end.

(** Modelled from the spec: lazy expiry in the missing rate limiter: the
    counter a request at time [now] finds, reset when the window's elapsed
    time exceeds its length. *)
Definition live_counter (now : Z) (c : option RateWindowCounter) : RateWindowCounter :=
  match c with
  | Some c =>
      if (window_length <? now - window_start c)%Z
      then {| window_start := now; count := 0 |}
      else c
  | None => {| window_start := now; count := 0 |}
  end.

(** Modelled from the spec: the result of [RoleRateLimiter.check], whose
    implementation is missing. *)
Record CheckResult := {
  allowed : bool;
  remaining : nat;
}.

(** Modelled from the spec: [RoleRateLimiter.check(key, tier)] of the missing
    rate limiter: the request increments the key's count, is denied when the
    count after the increment exceeds the tier's maximum, and the increment
    stays either way. *)
Definition check (now : Z) (key : Z + string) (tier : Role)
    (store : gmap (Z + string) RateWindowCounter)
  : gmap (Z + string) RateWindowCounter * CheckResult :=
  let c := live_counter now (store !! key) in
  let n := S (count c) in
  (<[key := {| window_start := window_start c; count := n |}]> store,
   {| allowed := (n <=? tier_limit tier)%nat;
      remaining := (tier_limit tier - n)%nat |}).

(** Modelled from the spec: the reason of an AdmissionDecision of the
    missing security middleware. *)
Inductive Reason := none | bot | shield | rate_limit.

(** Modelled from the spec: the AdmissionDecision of the missing security
    middleware. *)
Record AdmissionDecision := {
  allow : bool;
  reason : Reason;
}.

(** The pluggable shield and bot detectors: [true] when the detector trips
    on the request. *)
Variable shield_trips : request → bool.
Variable bot_trips : request → bool.

(** Modelled from the spec: the AdmissionController, in place of the missing
    [securityMiddleware]: shield, then bot, then the rate limit, stopping at
    the first denial. *)
Definition securityMiddleware (now : Z) (req : request)
    (identity : option Identity) (store : gmap (Z + string) RateWindowCounter)
  : gmap (Z + string) RateWindowCounter * AdmissionDecision :=
  if shield_trips req then (store, {| allow := false; reason := shield |})
  else if bot_trips req then (store, {| allow := false; reason := bot |})
  else
    let '(store', r) :=
      check now (rate_key identity (req_ip req)) (select_tier identity) store in
    (store',
     if allowed r then {| allow := true; reason := none |}
     else {| allow := false; reason := rate_limit |}).

(** Modelled from the spec: a sequence of timed requests of one caller
    passing through the missing security middleware one after the other;
    the decisions are listed in order. *)
Fixpoint admit_all (identity : option Identity) (reqs : list (Z * request))
    (store : gmap (Z + string) RateWindowCounter)
  : gmap (Z + string) RateWindowCounter * list AdmissionDecision :=
  match reqs with
  | [] => (store, [])
  | (now, req) :: rest =>
      let '(store', d) := securityMiddleware now req identity store in
      let '(store'', ds) := admit_all identity rest store' in
      (store'', d :: ds)
  end.

(** ** Identities as token payloads *)

(** The payload signed for an identity: its subject id, email and role. *)
Definition identity_claims (u : user) : jsobj :=
  {[ "id" := user_id u; "email" := user_email u; "role" := user_role u ]}.

(** The [SET] clause that the service [updateUser] sends to the table. *)
Definition assignments_sent (date_now : Z) (updates : jsobj) : jsobj :=
  mapUpdateSet (spread (updateData updates) {[ "updated_at" := JDate date_now ]}).

(** The decision the admission controller takes on a request that trips no
    detector and is the [n]-th of its window, under the given tier. *)
Definition nth_decision (tier : Role) (n : nat) : AdmissionDecision :=
  if (n <=? tier_limit tier)%nat
  then {| allow := true; reason := none |}
  else {| allow := false; reason := rate_limit |}.

(** The requests of one run: all from the same key, tripping no detector,
    and all inside the window that starts at [start]. *)
Definition same_window (identity : option Identity) (key : Z + string)
    (start : Z) (reqs : list (Z * request)) : Prop :=
  Forall (fun tr : Z * request =>
            rate_key identity (req_ip tr.2) = key ∧
            shield_trips tr.2 = false ∧ bot_trips tr.2 = false ∧
            start ≤ tr.1 ≤ start + window_length) reqs.

(** ** Tables after a write *)

(** The table after the service [updateUser] has written its [SET] clause to
    the rows with the given id. *)
Definition table_after_update (date_now id : Z) (updates : jsobj)
    (db : list jsobj) : list jsobj :=
  (fun r => if has_id id r then assignments_sent date_now updates ∪ r else r) <$> db.

(** The row that [createUser] inserts. *)
Definition created_row (serial date_now : Z) (name email passwordHash : string)
    (role : option string) : jsobj :=
  {[ "id" := JNum serial; "name" := JStr name; "email" := JStr email;
     "password" := JStr passwordHash; "role" := JStr (default "user" role);
     "created_at" := JDate date_now; "updated_at" := JDate date_now ]}.

(** A record as the services hand it out: exactly the public columns, and
    so no [password]. *)
Definition public_record (u : jsobj) : Prop :=
  u !! "password" = None ∧ ∀ c, is_Some (u !! c) ↔ c ∈ public_columns.

(** The requests of one caller: a guest's all come from the IP [ip], an
    identified caller's from wherever; none trips a detector, and all fall
    within the minute that starts at [start]. *)
Definition caller_requests (identity : option Identity) (ip : string)
    (start : Z) (reqs : list (Z * request)) : Prop :=
  Forall (fun tr : Z * request =>
            (identity = None → req_ip tr.2 = ip) ∧
            shield_trips tr.2 = false ∧ bot_trips tr.2 = false ∧
            start ≤ tr.1 ≤ start + 60) reqs.

(** ** Sample data

    Concrete values on which the statements below are exercised. *)

(** A keyed hash for the samples: it depends on the algorithm, the key and
    the signed email claim. *)
Definition sample_hmac : string → string → jsobj → string :=
  fun alg key claims =>
    alg ++ ":" ++ key ++ ":" ++
    match claims !! "email" with Some (JStr e) => e | _ => "" end.

Definition sample_env : process_env :=
  {| NODE_ENV := Some "production"; env_JWT_SECRET := Some "s3cret" |}.

(** Decimal text to number, NaN for anything else. *)
Definition sample_StringToNumber (s : string) : jsval :=
  match read_digits 0 s with
  | (n, "") => if String.eqb s "" then JNum 0 else JNum n
  | _ => JNaN
  end.

(** Accepts [{ id }] with a positive decimal id. *)
Definition sample_userIdSchema (params : jsval) : safeParse Z :=
  match params with
  | JObj o =>
      match sample_StringToNumber
              match o !! "id" with Some (JStr s) => s | _ => "x" end with
      | JNum n => if 0 <? n then ParseOk n else ParseFail (JStr "id")
      | _ => ParseFail (JStr "id")
      end
  | _ => ParseFail (JStr "params")
  end.

(** Accepts any object body. *)
Definition sample_updateUserSchema (body : jsval) : safeParse jsobj :=
  match body with
  | JObj o => ParseOk o
  | _ => ParseFail (JStr "body")
  end.

Definition sample_user (n : Z) (r : string) : user :=
  {| user_id := JNum n; user_email := JStr "ann@example.com"; user_role := JStr r |}.

Definition sample_jws (claims : jsobj) : jws :=
  {| jws_alg := "HS256"; jws_payload := claims;
     jws_signature := Some (sample_hmac "HS256" "s3cret" claims) |}.

Definition sample_token_of (claims : jsobj) : wire := Compact (sample_jws claims).

(** The two kinds of token error the specification names. *)
Inductive TokenErrorKind := Expired | Malformed.

(** Claims signed at time 0 for user 7, expiring at 86400. *)
Definition sample_claims : jsobj :=
  <["exp" := JNum 86400]> (<["iat" := JNum 0]> (identity_claims (sample_user 7 "user"))).

(** The same without a role claim. *)
Definition sample_roleless_claims : jsobj :=
  {[ "id" := JNum 7; "email" := JStr "ann@example.com";
     "iat" := JNum 0; "exp" := JNum 86400 ]}.

Definition sample_request (jar : option (gmap string wire)) (u : option user)
    (target : string) (body : jsobj) : request :=
  {| req_cookies := jar; req_user := u;
     req_params := JObj {[ "id" := JStr target ]};
     req_body := JObj body; req_ip := "203.0.113.5" |}.

Definition sample_row (n : Z) (name r : string) : jsobj :=
  {[ "id" := JNum n; "name" := JStr name; "email" := JStr (name ++ "@example.com");
     "password" := JStr "$2b$10$hash"; "role" := JStr r;
     "created_at" := JDate 1000; "updated_at" := JDate 1000 ]}.

Definition sample_db : list jsobj :=
  [sample_row 7 "ann" "user"; sample_row 9 "bob" "user"].

(** A toy bcrypt for the samples: the hash is the password behind a fixed
    prefix, and [compare] recomputes it. *)
Definition sample_bcrypt_hash : string → string → completion string :=
  fun _ password => Return ("$2b$10$" ++ password).

Definition sample_bcrypt_compare : string → string → completion bool :=
  fun password hash => Return (String.eqb hash ("$2b$10$" ++ password)).

(** An administrator, and the visits of a caller who changes address with
    every request: the [n]-th comes at second [100 + n] from the address
    [n]. *)
Definition sample_admin : Identity :=
  {| subject_id := 1; identity_email := "root@example.com"; identity_role := Admin |}.

Definition sample_visit (n : nat) : Z * request :=
  (100 + Z.of_nat n,
   {| req_cookies := None; req_user := None; req_params := JNull;
      req_body := JNull; req_ip := pretty n |}).

Definition sample_roaming (from count : nat) : list (Z * request) :=
  sample_visit <$> seq from count.

(** * Properties *)

#[local] Arguments String.eqb : simpl never.

(** Membership of a name in a list written out. *)
Ltac in_list := rewrite ?elem_of_cons; auto 10.

(** ** Token service *)

Lemma env_or_nonempty v fallback :
  fallback ≠ "" → String.eqb (env_or v fallback) "" = false.
Proof.
  intros Hf. unfold env_or. destruct v as [s|].
  - destruct (String.eqb s "") eqn:E; [|exact E].
    apply String.eqb_neq, Hf.
  - apply String.eqb_neq, Hf.
Qed.

Lemma JWT_SECRET_nonempty env : String.eqb (JWT_SECRET env) "" = false.
Proof. apply env_or_nonempty. discriminate. Qed.

Lemma timespan_1d iat : timespan JWT_EXPIRES_IN iat = Some (iat + 86400).
Proof. reflexivity. Qed.

(** Whatever makes the package's [verify] throw, [jwttoken.verify] throws the
    same fixed error. *)
Lemma jwttoken_verify_throw env now token e :
  jwttoken_verify env now token = Throw e →
  e = Error "failed to authenticate token".
Proof.
  unfold jwttoken_verify, try_catch.
  destruct (jwt_verify now token (JWT_SECRET env)); congruence.
Qed.

Lemma jwttoken_verify_of_throw env now token e :
  jwt_verify now token (JWT_SECRET env) = Throw e →
  jwttoken_verify env now token = Throw (Error "failed to authenticate token").
Proof. unfold jwttoken_verify, try_catch. intros ->. reflexivity. Qed.

Lemma jwttoken_verify_of_return env now token claims :
  jwt_verify now token (JWT_SECRET env) = Return claims →
  jwttoken_verify env now token = Return claims.
Proof. unfold jwttoken_verify, try_catch. intros ->. reflexivity. Qed.

(** Signing a payload that carries none of the registered time claims
    succeeds, stamps [iat] and [exp], and signs the stamped claims. *)
Lemma jwt_sign_plain now payload secret :
  String.eqb secret "" = false →
  payload !! "iat" = None → payload !! "exp" = None → payload !! "nbf" = None →
  let claims := <["exp" := JNum (now + 86400)]> (<["iat" := JNum now]> payload) in
  jwt_sign now payload secret JWT_EXPIRES_IN =
  Return (Compact {| jws_alg := "HS256"; jws_payload := claims;
                     jws_signature := Some (hmac "HS256" secret claims) |}).
Proof.
  intros Hs Hiat Hexp Hnbf. unfold jwt_sign, claim_is_number, prop.
  rewrite Hs, Hiat, Hexp, Hnbf. cbn [negb default is_undefined].
  rewrite timespan_1d. reflexivity.
Qed.

(** A correctly signed token without [nbf] verifies until its [exp]. *)
Lemma jwt_verify_signed now secret claims exp :
  String.eqb secret "" = false →
  claims !! "nbf" = None → claims !! "exp" = Some (JNum exp) → now < exp →
  jwt_verify now (Compact {| jws_alg := "HS256"; jws_payload := claims;
                             jws_signature := Some (hmac "HS256" secret claims) |})
             secret = Return claims.
Proof.
  intros Hs Hnbf Hexp Hlt. unfold jwt_verify, verify_time_claims, prop.
  cbn [jws_signature jws_alg jws_payload].
  rewrite Hs, String.eqb_refl, Hnbf, Hexp. cbn.
  destruct (Z.leb_spec exp now); [lia | reflexivity].
Qed.


Lemma identity_claims_time_free u :
  identity_claims u !! "iat" = None ∧ identity_claims u !! "exp" = None ∧
  identity_claims u !! "nbf" = None.
Proof. unfold identity_claims. repeat split; by simplify_map_eq. Qed.

(** C2. For every identity, a token signed for it at time [now] and verified
    at any time before its expiry [now + 1 day] yields the signed claims: the
    decoded object is the identity's payload with [iat] and [exp] added, so
    its id, email and role are those of the identity. *)
Theorem verify_sign_identity env now now' (u : user) :
  now' < now + 86400 →
  ∃ token decoded,
    jwttoken_sign env now (identity_claims u) = Return token ∧
    jwttoken_verify env now' token = Return decoded ∧
    decoded = <["exp" := JNum (now + 86400)]> (<["iat" := JNum now]> (identity_claims u)) ∧
    prop decoded "id" = user_id u ∧
    prop decoded "email" = user_email u ∧
    prop decoded "role" = user_role u ∧
    ∀ name, name ≠ "iat" → name ≠ "exp" → decoded !! name = identity_claims u !! name.
Proof.
  intros Hlt.
  destruct (identity_claims_time_free u) as (Hiat & Hexp & Hnbf).
  pose proof (JWT_SECRET_nonempty env) as Hs.
  eexists _, _. split; [|split; [|split; [reflexivity|]]].
  - unfold jwttoken_sign. rewrite (jwt_sign_plain now _ _ Hs Hiat Hexp Hnbf).
    reflexivity.
  - apply jwttoken_verify_of_return.
    apply jwt_verify_signed with (exp := now + 86400); [exact Hs| | |exact Hlt].
    + rewrite !lookup_insert_ne by discriminate. exact Hnbf.
    + apply lookup_insert_eq.
  - unfold prop, identity_claims.
    split; [by simplify_map_eq|]. split; [by simplify_map_eq|].
    split; [by simplify_map_eq|].
    intros name H1 H2. rewrite lookup_insert_ne by congruence.
    rewrite lookup_insert_ne by congruence. reflexivity.
Qed.

(** C3 (as the code has it). For every token whose [exp] claim is not after
    the clock, [jwttoken.verify] fails, and it fails with the one error
    [failed to authenticate token] that it raises for every token the
    package rejects, a malformed one included: the package's expiry error is
    replaced, and the two kinds of failure give the same result. *)
Theorem verify_expired_generic env now (t : jws) (exp : Z) :
  jws_payload t !! "exp" = Some (JNum exp) → exp ≤ now →
  jwttoken_verify env now (Compact t) = Throw (Error "failed to authenticate token") ∧
  ∀ other e, jwt_verify now other (JWT_SECRET env) = Throw e →
             jwttoken_verify env now other = jwttoken_verify env now (Compact t).
Proof.
  intros Hexp Hle.
  assert (∃ e, jwt_verify now (Compact t) (JWT_SECRET env) = Throw e) as [e He].
  { unfold jwt_verify, verify_time_claims, prop. rewrite Hexp.
    cbn [default is_undefined is_number negb andb].
    repeat match goal with
           | |- ∃ _, match ?x with _ => _ end = _ => destruct x eqn:?
           end; eauto.
    exfalso. unfold num_ge in *. cbn in *.
    match goal with H : (exp <=? now) = false |- _ => apply Z.leb_gt in H; lia end. }
  rewrite (jwttoken_verify_of_throw _ _ _ _ He). split; [reflexivity|].
  intros other e' He'. apply (jwttoken_verify_of_throw _ _ _ _ He').
Qed.


(** ** Identity resolution *)

Lemma verified_token_truthy env now token decoded :
  jwttoken_verify env now token = Return decoded → wire_truthy token = true.
Proof.
  destruct token as [s|t]; [|reflexivity].
  unfold jwttoken_verify, try_catch. cbn.
  destruct (String.eqb s ""); discriminate.
Qed.

Lemma attachUserFromToken_absent env now req :
  cookie_token req = None →
  attachUserFromToken env now req = (set_user None req, Next).
Proof. unfold attachUserFromToken. intros ->. reflexivity. Qed.

Lemma attachUserFromToken_rejected env now req token e :
  cookie_token req = Some token →
  jwttoken_verify env now token = Throw e →
  attachUserFromToken env now req = (set_user None req, Next).
Proof.
  unfold attachUserFromToken. intros -> Hv.
  destruct (wire_truthy token); cbn; [|reflexivity]. rewrite Hv. reflexivity.
Qed.

Lemma attachUserFromToken_verified env now req token decoded :
  cookie_token req = Some token →
  jwttoken_verify env now token = Return decoded →
  attachUserFromToken env now req =
  (set_user (Some {| user_id := prop decoded "id";
                     user_email := prop decoded "email";
                     user_role := js_or (prop decoded "role") (JStr "user") |}) req,
   Next).
Proof.
  unfold attachUserFromToken. intros Hc Hv. rewrite Hc.
  rewrite (verified_token_truthy _ _ _ _ Hv). cbn. rewrite Hv. reflexivity.
Qed.

(** C1. A request without a session cookie and a request whose cookie fails
    verification (for whatever reason the verification throws) both leave
    the middleware with no identity attached and with [next()] called, and
    the route guards answer both alike: [requireAuth] and every
    [requireRoles(...)] respond 401 to either. *)
Theorem guest_fallback env now req_absent req_invalid token e :
  cookie_token req_absent = None →
  cookie_token req_invalid = Some token →
  jwttoken_verify env now token = Throw e →
  let a := attachUserFromToken env now req_absent in
  let b := attachUserFromToken env now req_invalid in
  a = (set_user None req_absent, Next) ∧
  b = (set_user None req_invalid, Next) ∧
  req_user a.1 = None ∧ req_user b.1 = None ∧
  requireAuth a.1 = requireAuth b.1 ∧
  requireAuth a.1 = Respond 401 (error_body "Authentication required") ∧
  ∀ allowedRoles,
    requireRoles allowedRoles a.1 = requireRoles allowedRoles b.1 ∧
    requireRoles allowedRoles a.1 = Respond 401 (error_body "Authentication required").
Proof.
  intros Ha Hb Hv a b. subst a b.
  rewrite (attachUserFromToken_absent _ _ _ Ha).
  rewrite (attachUserFromToken_rejected _ _ _ _ _ Hb Hv).
  repeat split.
Qed.

(** C9. When the cookie's token verifies and its payload has no role claim,
    or a falsy one, the middleware attaches an identity whose role is
    ['user']: the request is authenticated, passes [requireAuth] and
    [requireRoles('user')], and its role names the user tier of 10 requests
    per minute. *)
Theorem role_defaults_to_user env now req token decoded :
  cookie_token req = Some token →
  jwttoken_verify env now token = Return decoded →
  truthy (prop decoded "role") = false →
  ∃ u,
    attachUserFromToken env now req = (set_user (Some u) req, Next) ∧
    user_role u = JStr "user" ∧
    user_id u = prop decoded "id" ∧
    user_email u = prop decoded "email" ∧
    requireAuth (set_user (Some u) req) = Next ∧
    requireRoles [JStr "user"] (set_user (Some u) req) = Next ∧
    role_of_claim (user_role u) = Some User ∧
    tier_limit User = 10%nat.
Proof.
  intros Hc Hv Hr.
  rewrite (attachUserFromToken_verified _ _ _ _ _ Hc Hv).
  unfold js_or. rewrite Hr.
  eexists. split; [reflexivity|]. repeat split.
Qed.


(** ** Session cookie *)

Lemma jwttoken_sign_identity env now (u : user) :
  let claims := <["exp" := JNum (now + 86400)]> (<["iat" := JNum now]> (identity_claims u)) in
  jwttoken_sign env now (identity_claims u) =
  Return (Compact {| jws_alg := "HS256"; jws_payload := claims;
                     jws_signature := Some (hmac "HS256" (JWT_SECRET env) claims) |}).
Proof.
  destruct (identity_claims_time_free u) as (Hiat & Hexp & Hnbf).
  cbv zeta. unfold jwttoken_sign.
  rewrite (jwt_sign_plain now _ _ (JWT_SECRET_nonempty env) Hiat Hexp Hnbf).
  reflexivity.
Qed.

(** Whatever payload is signed, the token's [exp] is its [iat] plus one
    day. *)
Lemma jwttoken_sign_expiry env now payload t :
  jwttoken_sign env now payload = Return (Compact t) →
  ∃ iat, jws_payload t !! "iat" = Some (JNum iat) ∧
         jws_payload t !! "exp" = Some (JNum (iat + 86400)).
Proof.
  unfold jwttoken_sign, try_catch, jwt_sign.
  repeat match goal with
         | |- context [if ?b then _ else _] => destruct b; try discriminate
         end.
  all: rewrite timespan_1d; intros [= <-]; cbn [jws_payload];
    eexists; split; [by rewrite lookup_insert_ne, lookup_insert_eq
                    | by rewrite lookup_insert_eq].
Qed.

(** C7. [cookies.set] with its default options writes the cookie with
    exactly the four fixed attributes: [httpOnly] true, [sameSite] strict,
    [secure] true exactly in production, and [maxAge] 900 seconds (900000
    ms), whatever the value written and whatever the time.  The token signed
    for an identity at time [now] carries [iat = now] and
    [exp = now + 86400], one day.  The cookie's lifetime is a constant of
    [getOptions] and not the token's. *)
Theorem session_cookie_attributes env res name value now (u : user) :
  cookies_set env res name value ∅ =
    {| cookie_calls := cookie_calls res ++ [SetCookie name value (cookies_getOptions env)] |} ∧
  cookies_getOptions env =
    {[ "httpOnly" := JBool true;
       "secure" := JBool (bool_decide (NODE_ENV env = Some "production"));
       "sameSite" := JStr "strict";
       "maxAge" := JNum 900000 ]} ∧
  (prop (cookies_getOptions env) "secure" = JBool true ↔ NODE_ENV env = Some "production") ∧
  prop (cookies_getOptions env) "maxAge" = JNum (900 * 1000) ∧
  (∃ t, jwttoken_sign env now (identity_claims u) = Return (Compact t) ∧
        prop (jws_payload t) "iat" = JNum now ∧
        prop (jws_payload t) "exp" = JNum (now + 86400)) ∧
  900 ≠ 86400.
Proof.
  split; [|split; [|split; [|split; [|split]]]].
  - unfold cookies_set, spread. by rewrite (left_id_L ∅ (∪)).
  - reflexivity.
  - unfold prop, cookies_getOptions.
    rewrite lookup_insert_ne by discriminate. rewrite lookup_insert_eq. cbn.
    split.
    + intros [= H]. by apply bool_decide_eq_true in H.
    + intros H. f_equal. by apply bool_decide_eq_true.
  - reflexivity.
  - eexists. split; [apply jwttoken_sign_identity|]. cbn [jws_payload]. unfold prop.
    split; by simplify_map_eq.
  - lia.
Qed.

(** C8 (what the code does). [cookies.get] reads [cookies] off the request
    prototype imported from express, which has no such property, so after
    [cookies.clear] (as at any other time) the call throws a [TypeError]
    for every response and every cookie name; it never returns the absent
    value. *)
Theorem get_after_clear_throws env res name options :
  cookies_get (cookies_clear env res name options) name =
    Throw (TypeError "Cannot read properties of undefined") ∧
  cookies_get (cookies_clear env res name options) name ≠ Return None.
Proof. split; [reflexivity | discriminate]. Qed.


(** ** Ownership guards of the users routes *)

Lemma includes_admin v :
  includes [JStr "admin"] v = strict_equal v (JStr "admin").
Proof.
  unfold includes. cbn. rewrite orb_false_r.
  destruct v as [| |b|n| |s|t|o]; cbn; try reflexivity.
  apply String.eqb_sym.
Qed.



(** C5 (as the code has it). On the delete route the guard
    [requireRoles('admin')] stands before the controller: for a request
    that names user [T] and carries the identity [C], every caller who is
    not an admin gets 403 from the guard, the target included, and an admin
    is let through to the service.  The controller behind the guard applies
    the self-or-admin rule: it lets the target or an admin through and
    answers 403 otherwise. *)
Theorem delete_admin_only date_now req db (T : Z) (C : user) :
  userIdSchema (req_params req) = ParseOk T →
  req_user req = Some C →
  let isAdmin := strict_equal (user_role C) (JStr "admin") in
  let isSelf := strict_equal (Number (user_id C)) (JNum T) in
  let proceed :=
    ((deleteUserService T db).1,
     reply "User deleted successfully" (deleteUserService T db).2) in
  (isAdmin = false →
     run_route router_delete_id date_now req db =
       (db, Respond 403 (error_body "Forbidden: insufficient permissions"))) ∧
  (isAdmin = true → run_route router_delete_id date_now req db = proceed) ∧
  (isSelf || isAdmin = true → deleteUser date_now req db = proceed) ∧
  (isSelf || isAdmin = false →
     deleteUser date_now req db =
       (db, Respond 403 (error_body "Not authorized to delete this user"))).
Proof.
  intros Hid Huser isAdmin isSelf proceed.
  assert (deleteUser date_now req db =
          if negb isSelf && negb isAdmin
          then (db, Respond 403 (error_body "Not authorized to delete this user"))
          else proceed) as Hctl.
  { unfold deleteUser. rewrite Hid, Huser. fold isAdmin isSelf.
    destruct (negb isSelf && negb isAdmin); [reflexivity|].
    subst proceed. by destruct (deleteUserService T db). }
  split; [|split; [|split]].
  - intros Hna. cbn. unfold requireAuth, requireRoles. rewrite Huser.
    rewrite includes_admin. fold isAdmin. rewrite Hna. reflexivity.
  - intros Ha. cbn. unfold requireAuth, requireRoles. rewrite Huser.
    rewrite includes_admin. fold isAdmin. rewrite Ha. cbn [negb].
    rewrite Hctl, Ha, andb_false_r.
    subst proceed. by destruct (reply _ _).
  - intros H. rewrite Hctl. rewrite <- negb_orb, H. reflexivity.
  - intros H. rewrite Hctl. rewrite <- negb_orb, H. reflexivity.
Qed.


(** ** The users service *)

Lemma updateData_other updates c :
  c ∉ allowedFields → updateData updates !! c = None.
Proof.
  unfold allowedFields. intros Hc.
  apply not_elem_of_cons in Hc as [H1 Hc].
  apply not_elem_of_cons in Hc as [H2 Hc].
  apply not_elem_of_cons in Hc as [H3 _].
  unfold updateData, allowedFields. cbn [foldl].
  destruct (updates !! "name"), (updates !! "email"), (updates !! "role");
    by simplify_map_eq.
Qed.

Lemma updateData_empty updates :
  (∀ f, f ∈ allowedFields → updates !! f = None) → updateData updates = ∅.
Proof.
  intros H. unfold updateData, allowedFields. cbn [foldl].
  rewrite !H by (unfold allowedFields; in_list). reflexivity.
Qed.

Lemma assignments_sent_other date_now updates c :
  c ∉ ["name"; "email"; "role"; "updated_at"] →
  assignments_sent date_now updates !! c = None.
Proof.
  intros Hc.
  apply not_elem_of_cons in Hc as [H1 Hc].
  apply not_elem_of_cons in Hc as [H2 Hc].
  apply not_elem_of_cons in Hc as [H3 Hc].
  apply not_elem_of_cons in Hc as [H4 _].
  unfold assignments_sent, mapUpdateSet, spread.
  apply map_lookup_filter_None. left.
  apply lookup_union_None. split.
  - apply lookup_singleton_ne. congruence.
  - apply updateData_other. unfold allowedFields.
    rewrite !not_elem_of_cons. repeat split; auto using not_elem_of_nil.
Qed.

(** The service leaves the table as it was or applies its [SET] clause to
    the rows with the given id. *)
Lemma updateUserService_table date_now id updates db :
  (updateUserService date_now id updates db).1 = db ∨
  (updateUserService date_now id updates db).1 =
    (fun r => if has_id id r then assignments_sent date_now updates ∪ r else r) <$> db.
Proof.
  unfold updateUserService.
  destruct (head (select_by_id db id)); [|by left].
  destruct (Nat.eqb (size (updateData updates)) 0); [by left|].
  unfold db_update. fold (assignments_sent date_now updates).
  destruct (Nat.eqb (size (assignments_sent date_now updates)) 0); [by left|].
  cbv zeta. destruct (db_rejects _); [by left|].
  cbn. destruct (head _); by right.
Qed.

(** C10. Whatever keys [updates] has, the service [updateUser] keeps the
    table's length, leaves rows with another id as they are, and in every
    row changes at most the columns [name], [email], [role] and
    [updated_at]: every other column, [password], [id] and [created_at]
    among them, keeps its value.  When [updates] has none of [name],
    [email], [role] and the user exists, the table is not written and the
    existing record is returned. *)
Theorem updateUser_frame date_now id updates db :
  let db' := (updateUserService date_now id updates db).1 in
  length db' = length db ∧
  (∀ i r r', db !! i = Some r → db' !! i = Some r' →
     (has_id id r = false → r' = r) ∧
     (∀ c, c ∉ ["name"; "email"; "role"; "updated_at"] → r' !! c = r !! c) ∧
     r' !! "password" = r !! "password" ∧
     r' !! "id" = r !! "id" ∧
     r' !! "created_at" = r !! "created_at") ∧
  (∀ existingUser,
     head (select_by_id db id) = Some existingUser →
     (∀ f, f ∈ allowedFields → updates !! f = None) →
     updateUserService date_now id updates db =
       (db, Return (columns public_columns existingUser))).
Proof.
  intros db'. split; [|split].
  - subst db'. destruct (updateUserService_table date_now id updates db) as [-> | ->];
      [reflexivity | apply length_fmap].
  - intros i r r' Hr Hr'.
    assert (r' = r ∨ r' = assignments_sent date_now updates ∪ r ∧ has_id id r = true)
      as Hcase.
    { subst db'.
      destruct (updateUserService_table date_now id updates db) as [E | E];
        rewrite E in Hr'.
      - left. congruence.
      - rewrite list_lookup_fmap, Hr in Hr'. cbn in Hr'. injection Hr' as <-.
        destruct (has_id id r); [by right | by left]. }
    assert (∀ c, c ∉ ["name"; "email"; "role"; "updated_at"] → r' !! c = r !! c)
      as Hframe.
    { intros c Hc. destruct Hcase as [-> | [-> _]]; [reflexivity|].
      rewrite lookup_union_r; [reflexivity|]. by apply assignments_sent_other. }
    split; [|split; [exact Hframe|]].
    + intros Hid. destruct Hcase as [-> | [_ Hid']]; [reflexivity | congruence].
    + repeat split; apply Hframe;
        rewrite !not_elem_of_cons; repeat split;
        (discriminate || apply not_elem_of_nil).
  - intros existingUser Hex Hnone. unfold updateUserService.
    rewrite Hex, (updateData_empty _ Hnone). reflexivity.
Qed.


(** ** Admission control *)

(** With a live counter at [n] for the key, the [i]-th request of the run is
    the [(n + 1 + i)]-th of the window. *)
Lemma admit_all_counted identity key start reqs :
  same_window identity key start reqs →
  ∀ store n,
    store !! key = Some {| window_start := start; count := n |} →
    (admit_all identity reqs store).2 =
      (fun i => nth_decision (select_tier identity) (S (n + i))) <$> seq 0 (length reqs).
Proof.
  induction 1 as [|[now req] rest (Hkey & Hs & Hb & Hlo & Hhi) _ IH];
    intros store n Hstore; [reflexivity|].
  cbn [admit_all length seq fmap list_fmap]. cbn in Hkey, Hs, Hb, Hlo, Hhi.
  unfold securityMiddleware. rewrite Hs, Hb, Hkey. unfold check.
  rewrite Hstore. unfold live_counter. cbn [window_start count].
  replace (window_length <? now - start) with false
    by (symmetry; apply Z.ltb_ge; unfold window_length in *; lia).
  cbn [window_start count allowed].
  specialize (IH (<[key := {| window_start := start; count := S n |}]> store) (S n)
                 (lookup_insert_eq _ _ _)).
  destruct (admit_all identity rest _) as [store'' ds]. cbn [snd] in *.
  rewrite IH. f_equal.
  - unfold nth_decision. by rewrite Nat.add_0_r.
  - rewrite <- (fmap_S_seq 0), <- list_fmap_compose.
    apply list_fmap_ext. intros _ i _. cbn. by rewrite Nat.add_succ_r.
Qed.

(** C6. One caller sends requests; the first opens the window of the
    caller's key and the others fall inside that one-minute window, and no
    detector trips.  The key is the subject id of an identified caller,
    whatever addresses the requests come from, and the IP of a guest.  Then
    request number [i + 1] is admitted when [i] is below the limit of the
    caller's tier and denied with reason [rate_limit] otherwise, the limit
    being 5 without identity and, with one, 5, 10 or 20 as its role is
    guest, user or admin: a guest's first five requests pass and the sixth
    is refused. *)
Theorem role_rate_limit (identity : option Identity) (ip : string) (t0 : Z)
    (first : request) (rest : list (Z * request)) store :
  live_counter t0 (store !! match identity with
                            | Some i => inl (subject_id i)
                            | None => inr ip
                            end) =
    {| window_start := t0; count := 0 |} →
  caller_requests identity ip t0 ((t0, first) :: rest) →
  let decisions := (admit_all identity ((t0, first) :: rest) store).2 in
  let limit :=
    match identity with
    | None => 5
    | Some i => match identity_role i with Guest => 5 | User => 10 | Admin => 20 end
    end%nat in
  length decisions = S (length rest) ∧
  (∀ i d, decisions !! i = Some d →
     d = if (i <? limit)%nat then {| allow := true; reason := none |}
         else {| allow := false; reason := rate_limit |}) ∧
  (tier_limit Guest = 5 ∧ tier_limit User = 10 ∧ tier_limit Admin = 20)%nat ∧
  select_tier None = Guest ∧
  (∀ i, select_tier (Some i) = identity_role i) ∧
  (∀ i a, rate_key (Some i) a = inl (subject_id i)) ∧
  (∀ a, rate_key None a = inr a).
Proof.
  intros Hfresh Hwin decisions limit.
  set (key := match identity with
              | Some i => inl (subject_id i)
              | None => inr ip
              end : Z + string) in *.
  assert (same_window identity key t0 ((t0, first) :: rest)) as Hsame.
  { unfold caller_requests in Hwin. unfold same_window.
    eapply Forall_impl; [exact Hwin|].
    intros [t r] (Hip & Hs & Hb & Ht). cbn in *.
    split; [|split; [exact Hs|split; [exact Hb|unfold window_length; lia]]].
    subst key. destruct identity; cbn; [reflexivity|]. f_equal. by apply Hip. }
  assert (decisions =
          (fun i => nth_decision (select_tier identity) (S i)) <$>
            seq 0 (S (length rest))) as ->.
  { subst decisions. inversion Hsame as [|? ? (Hkey & Hs & Hb & _) Hrest]; subst.
    cbn in Hkey, Hs, Hb.
    cbn [admit_all]. unfold securityMiddleware. rewrite Hs, Hb, Hkey.
    unfold check. rewrite Hfresh. cbn [window_start count allowed].
    pose proof (admit_all_counted identity key t0 rest Hrest
                  (<[key := {| window_start := t0; count := 1 |}]> store) 1%nat
                  (lookup_insert_eq _ _ _)) as IH.
    destruct (admit_all identity rest _) as [store'' ds]. cbn [snd] in *.
    rewrite IH. cbn [seq fmap list_fmap]. f_equal.
    rewrite <- (fmap_S_seq 0), <- list_fmap_compose. reflexivity. }
  split; [by rewrite length_fmap, length_seq|].
  split; [|by repeat split].
  intros i d Hd. rewrite list_lookup_fmap in Hd.
  destruct (seq 0 (S (length rest)) !! i) as [j|] eqn:Hj; [|discriminate].
  apply lookup_seq in Hj as [-> _]. cbn in Hd. injection Hd as <-.
  unfold nth_decision. subst limit.
  destruct identity as [[sid mail []]|]; cbn [select_tier identity_role tier_limit];
    match goal with
    | |- context [(S i <=? ?n)%nat] =>
        destruct (Nat.ltb_spec i n), (Nat.leb_spec (S i) n); (reflexivity || lia)
    end.
Qed.

(** * Further properties of the code *)

(** ** The identity middleware *)

Lemma set_user_set_user u0 u req : set_user u (set_user u0 req) = set_user u req.
Proof. reflexivity. Qed.

(** X1. [attachUserFromToken] never answers the request and never raises:
    it always calls [next()].  It changes nothing of the request but
    [req.user], and what it puts there does not depend on the [req.user] it
    finds, so running it twice is the same as running it once. *)
Theorem attachUserFromToken_passes env now req :
  let r := attachUserFromToken env now req in
  r.2 = Next ∧
  req_cookies r.1 = req_cookies req ∧ req_params r.1 = req_params req ∧
  req_body r.1 = req_body req ∧ req_ip r.1 = req_ip req ∧
  (∀ u0, attachUserFromToken env now (set_user u0 req) = r) ∧
  attachUserFromToken env now r.1 = r.
Proof.
  assert (∀ u0, attachUserFromToken env now (set_user u0 req) =
                attachUserFromToken env now req) as Hany.
  { intros u0. unfold attachUserFromToken.
    change (cookie_token (set_user u0 req)) with (cookie_token req).
    destruct (cookie_token req) as [token|]; [|reflexivity].
    destruct (negb (wire_truthy token)); [reflexivity|].
    destruct (jwttoken_verify env now token); reflexivity. }
  assert (∃ u, attachUserFromToken env now req = (set_user u req, Next)) as [u Hu].
  { unfold attachUserFromToken.
    destruct (cookie_token req) as [token|]; [|eauto].
    destruct (negb (wire_truthy token)); [eauto|].
    destruct (jwttoken_verify env now token); eauto. }
  cbv zeta. rewrite Hu. cbn [fst snd].
  split; [reflexivity|]. split; [reflexivity|]. split; [reflexivity|].
  split; [reflexivity|]. split; [reflexivity|]. split.
  - intros u0. rewrite Hany. exact Hu.
  - rewrite Hany. exact Hu.
Qed.

(** X2. The round trip of a session: when the cookie holds the token that
    [jwttoken.sign] made for an identity with a truthy role, the middleware
    attaches exactly that identity, at any time before the token's expiry
    one day after signing. *)
Theorem signed_cookie_attaches env now now' req (u : user) token :
  jwttoken_sign env now (identity_claims u) = Return token →
  cookie_token req = Some token →
  now' < now + 86400 →
  truthy (user_role u) = true →
  attachUserFromToken env now' req = (set_user (Some u) req, Next).
Proof.
  intros Hsign Hcookie Hlt Hrole.
  rewrite jwttoken_sign_identity in Hsign. injection Hsign as <-.
  destruct (identity_claims_time_free u) as (_ & _ & Hnbf).
  set (claims := <["exp" := JNum (now + 86400)]>
                   (<["iat" := JNum now]> (identity_claims u))) in *.
  assert (jwttoken_verify env now'
            (Compact {| jws_alg := "HS256"; jws_payload := claims;
                        jws_signature := Some (hmac "HS256" (JWT_SECRET env) claims) |}) =
          Return claims) as Hv.
  { apply jwttoken_verify_of_return.
    apply jwt_verify_signed with (exp := now + 86400);
      [apply JWT_SECRET_nonempty | | | exact Hlt]; subst claims.
    - rewrite !lookup_insert_ne by discriminate. exact Hnbf.
    - apply lookup_insert_eq. }
  rewrite (attachUserFromToken_verified env now' req _ _ Hcookie Hv).
  assert (prop claims "id" = user_id u ∧ prop claims "email" = user_email u ∧
          prop claims "role" = user_role u) as (-> & -> & ->).
  { subst claims. unfold prop, identity_claims. repeat split; by simplify_map_eq. }
  unfold js_or. rewrite Hrole. by destruct u.
Qed.

(** X3. The middleware attaches an identity only for a token it could
    verify: the cookie then holds a signed token whose signature is the
    keyed hash of its claims under [JWT_SECRET], whose [exp], when a number,
    lies after the clock, and the identity's id and email are the token's
    claims. *)
Theorem identity_needs_valid_token env now req (u : user) :
  req_user (attachUserFromToken env now req).1 = Some u →
  ∃ t,
    cookie_token req = Some (Compact t) ∧
    jws_signature t = Some (hmac (jws_alg t) (JWT_SECRET env) (jws_payload t)) ∧
    (∀ exp, jws_payload t !! "exp" = Some (JNum exp) → now < exp) ∧
    user_id u = prop (jws_payload t) "id" ∧
    user_email u = prop (jws_payload t) "email" ∧
    user_role u = js_or (prop (jws_payload t) "role") (JStr "user").
Proof.
  unfold attachUserFromToken.
  destruct (cookie_token req) as [token|]; [|discriminate].
  destruct (negb (wire_truthy token)); [discriminate|].
  destruct (jwttoken_verify env now token) as [decoded|e] eqn:Hv; [|discriminate].
  cbn. intros [= <-].
  unfold jwttoken_verify, try_catch in Hv.
  destruct (jwt_verify now token (JWT_SECRET env)) as [p|] eqn:Hj; [|discriminate].
  injection Hv as ->.
  destruct token as [s|t]; cbn in Hj; [destruct (String.eqb s ""); discriminate|].
  destruct (jws_signature t) as [sig|] eqn:Hsig; [|discriminate].
  destruct (String.eqb (JWT_SECRET env) ""); [discriminate|].
  destruct (negb (bool_decide _)); [discriminate|].
  destruct (String.eqb_spec (hmac (jws_alg t) (JWT_SECRET env) (jws_payload t)) sig)
    as [Hmac|]; [|discriminate].
  cbn [negb] in Hj. unfold verify_time_claims in Hj.
  repeat match type of Hj with
         | (if ?b then _ else _) = _ => destruct b eqn:?; [discriminate|]
         end.
  injection Hj as <-.
  exists t. split; [reflexivity|]. split; [by rewrite Hmac|].
  split; [|by repeat split].
  intros exp Hexp. unfold prop in *. rewrite Hexp in *. cbn in *.
  match goal with H : (exp <=? now) = false |- _ => apply Z.leb_gt in H; lia end.
Qed.

(** X4. In a route, [requireAuth] placed before [requireRoles(...)] adds
    nothing: the route answers the same with and without it, whatever
    handlers follow. *)
Theorem requireAuth_before_requireRoles allowedRoles (rest : list handler)
    date_now req db :
  run_route (guard requireAuth :: guard (requireRoles allowedRoles) :: rest)
            date_now req db =
  run_route (guard (requireRoles allowedRoles) :: rest) date_now req db.
Proof.
  cbn. unfold requireAuth, requireRoles.
  destruct (req_user req); reflexivity.
Qed.

(** ** The cookie helpers *)

(** X5. [cookies.set] and [cookies.clear], called with the same options,
    hand express the same attribute object: each attribute is the caller's
    when the caller gives it, and the default of [getOptions] otherwise;
    earlier cookie calls on the response are kept. *)
Theorem set_and_clear_same_attributes env res res' name value (options : jsobj) :
  ∃ attributes : jsobj,
    cookie_calls (cookies_set env res name value options) =
      (cookie_calls res ++ [SetCookie name value attributes])%list ∧
    cookie_calls (cookies_clear env res' name options) =
      (cookie_calls res' ++ [ClearCookie name attributes])%list ∧
    ∀ k, attributes !! k =
         match options !! k with
         | Some v => Some v
         | None => cookies_getOptions env !! k
         end.
Proof.
  exists (spread (cookies_getOptions env) options).
  split; [reflexivity|]. split; [reflexivity|].
  intros k. unfold spread. rewrite lookup_union.
  destruct (options !! k), (cookies_getOptions env !! k); reflexivity.
Qed.


(** ** The users service, reads and writes *)

Lemma columns_lookup_in names r c :
  c ∈ names → columns names r !! c = Some (prop r c).
Proof.
  unfold columns. induction names as [|n ns IH]; intros Hc.
  - by apply elem_of_nil in Hc.
  - rewrite fmap_cons, list_to_map_cons.
    destruct (decide (n = c)) as [->|Hne]; [by rewrite lookup_insert_eq|].
    rewrite lookup_insert_ne by exact Hne. apply IH.
    apply elem_of_cons in Hc as [->|Hc]; [congruence | exact Hc].
Qed.

Lemma columns_lookup_notin names r c :
  c ∉ names → columns names r !! c = None.
Proof.
  unfold columns. induction names as [|n ns IH]; intros Hc; [reflexivity|].
  apply not_elem_of_cons in Hc as [Hne Hc].
  rewrite fmap_cons, list_to_map_cons.
  rewrite lookup_insert_ne by congruence. by apply IH.
Qed.

Lemma password_not_public r : columns public_columns r !! "password" = None.
Proof.
  apply columns_lookup_notin. unfold public_columns.
  rewrite !not_elem_of_cons. repeat split; (discriminate || apply not_elem_of_nil).
Qed.

Lemma filter_none {A} (f : A → bool) (l : list A) :
  (∀ x, x ∈ l → f x = false) → List.filter f l = [].
Proof.
  induction l as [|a l IH]; intros H; [reflexivity|]. cbn.
  rewrite (H a) by (apply elem_of_cons; auto).
  apply IH. intros x Hx. apply H, elem_of_cons. auto.
Qed.

Lemma filter_all {A} (f : A → bool) (l : list A) :
  (∀ x, x ∈ l → f x = true) → List.filter f l = l.
Proof.
  induction l as [|a l IH]; intros H; [reflexivity|]. cbn.
  rewrite (H a) by (apply elem_of_cons; auto). f_equal.
  apply IH. intros x Hx. apply H, elem_of_cons. auto.
Qed.

Lemma filter_empty_none {A} (f : A → bool) (l : list A) :
  List.filter f l = [] → ∀ x, x ∈ l → f x = false.
Proof.
  induction l as [|a l IH]; intros H x Hx; [by apply elem_of_nil in Hx|].
  cbn in H. destruct (f a) eqn:Ha; [discriminate|].
  apply elem_of_cons in Hx as [->|Hx]; [exact Ha | by apply IH].
Qed.

Lemma head_take_1 {A} (l : list A) : head (take 1 l) = head l.
Proof. by destruct l. Qed.

Lemma has_id_after_write date_now id updates r :
  has_id id (assignments_sent date_now updates ∪ r) = has_id id r.
Proof.
  unfold has_id, prop. rewrite lookup_union_r; [reflexivity|].
  apply assignments_sent_other.
  rewrite !not_elem_of_cons. repeat split; (discriminate || apply not_elem_of_nil).
Qed.

Lemma filter_table_after_update date_now id updates db :
  List.filter (has_id id) (table_after_update date_now id updates db) =
  (fun r => assignments_sent date_now updates ∪ r) <$> List.filter (has_id id) db.
Proof.
  unfold table_after_update. induction db as [|r db IH]; [reflexivity|].
  cbn. destruct (has_id id r) eqn:Hr.
  - rewrite has_id_after_write, Hr. cbn. by rewrite IH.
  - rewrite Hr. exact IH.
Qed.

Lemma updateData_allowed updates f :
  f ∈ allowedFields → updateData updates !! f = updates !! f.
Proof.
  unfold allowedFields. intros Hf.
  unfold updateData, allowedFields. cbn [foldl].
  apply elem_of_cons in Hf as [->|Hf];
    [|apply elem_of_cons in Hf as [->|Hf];
      [|apply elem_of_cons in Hf as [->|Hf]; [|by apply elem_of_nil in Hf]]];
    destruct (updates !! "name") eqn:?, (updates !! "email") eqn:?,
             (updates !! "role") eqn:?; by simplify_map_eq.
Qed.

Lemma assignments_sent_allowed date_now updates f :
  f ∈ allowedFields →
  assignments_sent date_now updates !! f =
  match updates !! f with
  | Some v => if is_undefined v then None else Some v
  | None => None
  end.
Proof.
  intros Hf.
  assert (f ≠ "updated_at") as Hne.
  { intros ->. unfold allowedFields in Hf. rewrite !elem_of_cons, elem_of_nil in Hf.
    destruct Hf as [|[|[|]]]; (discriminate || contradiction). }
  unfold assignments_sent, mapUpdateSet, spread.
  rewrite map_lookup_filter, lookup_union, lookup_singleton_ne by congruence.
  rewrite (left_id None _), (updateData_allowed _ _ Hf).
  destruct (updates !! f) as [v|]; [|reflexivity]. cbn.
  destruct (is_undefined v); by simplify_option_eq.
Qed.

Lemma assignments_sent_updated_at date_now updates :
  assignments_sent date_now updates !! "updated_at" = Some (JDate date_now).
Proof.
  unfold assignments_sent, mapUpdateSet, spread.
  apply map_lookup_filter_Some. split; [|reflexivity].
  apply lookup_union_Some_l, lookup_singleton_eq.
Qed.

(** The statement the service sends goes through when the user exists, an
    allowed field is present and the database accepts the new table. *)
Lemma updateUserService_written date_now id updates db existing f :
  head (select_by_id db id) = Some existing →
  f ∈ allowedFields → is_Some (updates !! f) →
  db_rejects (table_after_update date_now id updates db) = false →
  updateUserService date_now id updates db =
    (table_after_update date_now id updates db,
     Return (columns public_columns (assignments_sent date_now updates ∪ existing))).
Proof.
  intros Hex Hf Hsome Hok. unfold updateUserService. rewrite Hex.
  assert (Nat.eqb (size (updateData updates)) 0 = false) as ->.
  { apply Nat.eqb_neq, map_size_non_empty_iff. intros Hempty.
    pose proof (updateData_allowed updates f Hf) as E.
    rewrite Hempty, lookup_empty in E. destruct Hsome as [v Hv]. congruence. }
  unfold db_update. fold (assignments_sent date_now updates).
  assert (Nat.eqb (size (assignments_sent date_now updates)) 0 = false) as ->.
  { apply Nat.eqb_neq, map_size_non_empty_iff. intros Hempty.
    pose proof (assignments_sent_updated_at date_now updates) as E.
    rewrite Hempty, lookup_empty in E. discriminate. }
  cbv zeta. fold (table_after_update date_now id updates db). rewrite Hok.
  rewrite filter_table_after_update.
  unfold select_by_id in Hex. rewrite head_take_1 in Hex.
  destruct (List.filter (has_id id) db) as [|r rs]; [discriminate|].
  injection Hex as ->. reflexivity.
Qed.


Lemma columns_public r : public_record (columns public_columns r).
Proof.
  split; [apply password_not_public|]. intros c.
  destruct (decide (c ∈ public_columns)) as [Hin|Hout].
  - rewrite (columns_lookup_in _ _ _ Hin). split; [done | eauto].
  - rewrite (columns_lookup_notin _ _ _ Hout). split; [by intros [? [=]] | done].
Qed.

Lemma strict_equal_num v n : strict_equal v (JNum n) = true → v = JNum n.
Proof.
  destruct v; cbn; try discriminate. intros H. f_equal. by apply Z.eqb_eq.
Qed.

(** X6. Every record the users service hands out, from [getAllUsers],
    [getUserById], [updateUser] or [deleteUser], has exactly the six public
    columns: the [password] column never leaves the service. *)
Theorem services_return_public_records date_now id updates db :
  (∀ all u, getAllUsers db = Return all → u ∈ all → public_record u) ∧
  (∀ u, getUserByIdService id db = Return (Some u) → public_record u) ∧
  (∀ u, (updateUserService date_now id updates db).2 = Return u → public_record u) ∧
  (∀ u, (deleteUserService id db).2 = Return u → public_record u).
Proof.
  assert (∀ (l : list jsobj) u,
            head (columns public_columns <$> l) = Some u → public_record u) as Hhead.
  { intros [|r l] u; [discriminate|]. intros [= <-]. apply columns_public. }
  split; [|split; [|split]].
  - intros all u [= <-] Hu. apply list_elem_of_fmap in Hu as (r & -> & _).
    apply columns_public.
  - intros u [= Hu]. by apply Hhead in Hu.
  - intros u. unfold updateUserService.
    destruct (head (select_by_id db id)) as [existing|]; [|discriminate].
    destruct (Nat.eqb (size (updateData updates)) 0).
    { intros [= <-]. apply columns_public. }
    unfold db_update.
    destruct (Nat.eqb (size _) 0); [discriminate|]. cbv zeta.
    destruct (db_rejects _); [discriminate|]. cbn.
    match goal with |- context [head ?l] => destruct (head l) eqn:Hh end;
      [|discriminate].
    intros [= <-]. by apply Hhead in Hh.
  - intros u. unfold deleteUserService, db_delete. cbn.
    match goal with |- context [head ?l] => destruct (head l) eqn:Hh end;
      [|discriminate].
    intros [= <-]. by apply Hhead in Hh.
Qed.

(** X7. For an id that no row of the table carries, [getUserById] returns
    [null], and [updateUser] and [deleteUser] throw [User not found]; the
    table is left as it was. *)
Theorem missing_user_not_found date_now id updates db :
  (∀ r, r ∈ db → has_id id r = false) →
  getUserByIdService id db = Return None ∧
  updateUserService date_now id updates db = (db, Throw (Error "User not found")) ∧
  deleteUserService id db = (db, Throw (Error "User not found")).
Proof.
  intros Hnone. pose proof (filter_none _ _ Hnone) as Hf.
  split; [|split].
  - unfold getUserByIdService, select_by_id. by rewrite Hf.
  - unfold updateUserService, select_by_id. by rewrite Hf.
  - unfold deleteUserService, db_delete. rewrite Hf. cbn. f_equal.
    apply filter_all. intros r Hr. by rewrite (Hnone r Hr).
Qed.

(** X8. When the user exists, [updates] gives an allowed field a value
    other than [undefined], and the database accepts the statement, the
    service [updateUser] writes that value to the field in every row with
    the id, stamps [updated_at] with the current date, and returns the
    written record; [getUserById] on the new table returns the same
    record. *)
Theorem updateUser_applies date_now id updates db existing f v :
  head (select_by_id db id) = Some existing →
  f ∈ allowedFields → updates !! f = Some v → is_undefined v = false →
  db_rejects (table_after_update date_now id updates db) = false →
  ∃ updated,
    updateUserService date_now id updates db =
      (table_after_update date_now id updates db, Return updated) ∧
    updated !! f = Some v ∧
    updated !! "updated_at" = Some (JDate date_now) ∧
    updated !! "id" = Some (JNum id) ∧
    (∀ r', r' ∈ table_after_update date_now id updates db →
           has_id id r' = true →
           r' !! f = Some v ∧ r' !! "updated_at" = Some (JDate date_now)) ∧
    getUserByIdService id (table_after_update date_now id updates db) =
      Return (Some updated).
Proof.
  intros Hex Hf Hv Hdef Hok.
  pose proof (assignments_sent_allowed date_now updates f Hf) as Hsent.
  rewrite Hv, Hdef in Hsent.
  pose proof (assignments_sent_updated_at date_now updates) as Hstamp.
  assert (f ∈ public_columns) as Hpub.
  { unfold allowedFields in Hf. unfold public_columns.
    rewrite !elem_of_cons, elem_of_nil in Hf.
    destruct Hf as [->|[->|[->|[]]]]; in_list. }
  assert (has_id id existing = true) as Hid.
  { unfold select_by_id in Hex. rewrite head_take_1 in Hex.
    apply head_Some_elem_of, list_elem_of_In, filter_In in Hex. apply Hex. }
  eexists. split; [by eapply updateUserService_written|].
  split; [|split; [|split; [|split]]].
  - rewrite (columns_lookup_in _ _ _ Hpub). unfold prop.
    by rewrite (lookup_union_Some_l _ _ _ _ Hsent).
  - rewrite columns_lookup_in by (unfold public_columns; in_list).
    unfold prop. by rewrite (lookup_union_Some_l _ _ _ _ Hstamp).
  - rewrite columns_lookup_in by (unfold public_columns; in_list).
    f_equal. apply strict_equal_num.
    change (has_id id (assignments_sent date_now updates ∪ existing) = true).
    rewrite has_id_after_write. exact Hid.
  - intros r' Hr' Hr'id. unfold table_after_update in Hr'.
    apply list_elem_of_fmap in Hr' as (r & -> & _).
    destruct (has_id id r) eqn:Hr; [|congruence].
    split; by apply lookup_union_Some_l.
  - unfold getUserByIdService, select_by_id.
    rewrite filter_table_after_update.
    unfold select_by_id in Hex. rewrite head_take_1 in Hex.
    destruct (List.filter (has_id id) db) as [|r rs]; [discriminate|].
    injection Hex as ->. reflexivity.
Qed.

Lemma filter_other_id id id' db :
  id' ≠ id →
  List.filter (has_id id') (List.filter (fun r => negb (has_id id r)) db) =
  List.filter (has_id id') db.
Proof.
  intros Hne. induction db as [|r db IH]; [reflexivity|]. cbn.
  destruct (has_id id r) eqn:Hr; cbn.
  - assert (has_id id' r = false) as ->; [|exact IH].
    unfold has_id in *. apply strict_equal_num in Hr. rewrite Hr. cbn.
    apply Z.eqb_neq. congruence.
  - destruct (has_id id' r); [f_equal|]; exact IH.
Qed.

(** X9. After the service [deleteUser] the table holds exactly the rows of
    other ids, in their order; a second [deleteUser] of the id throws
    [User not found] and [getUserById] returns [null].  When the user
    existed, the deleted record is returned. *)
Theorem deleteUser_removes id db :
  let db' := (deleteUserService id db).1 in
  (∀ r, r ∈ db' ↔ r ∈ db ∧ has_id id r = false) ∧
  (∀ id', id' ≠ id → List.filter (has_id id') db' = List.filter (has_id id') db) ∧
  getUserByIdService id db' = Return None ∧
  deleteUserService id db' = (db', Throw (Error "User not found")) ∧
  (∀ existing, head (select_by_id db id) = Some existing →
               (deleteUserService id db).2 = Return (columns public_columns existing)).
Proof.
  assert ((deleteUserService id db).1 = List.filter (fun r => negb (has_id id r)) db)
    as ->.
  { unfold deleteUserService, db_delete. cbn. by destruct (head _). }
  assert (∀ r, r ∈ List.filter (fun r => negb (has_id id r)) db ↔
               r ∈ db ∧ has_id id r = false) as Hmem.
  { intros r. rewrite !list_elem_of_In, filter_In, negb_true_iff. reflexivity. }
  assert (List.filter (has_id id) (List.filter (fun r => negb (has_id id r)) db) = [])
    as Hgone.
  { apply filter_none. intros r Hr. by apply Hmem in Hr as [_ ?]. }
  cbv zeta. split; [exact Hmem|]. split; [|split; [|split]].
  - intros id' Hne. by apply filter_other_id.
  - unfold getUserByIdService, select_by_id. by rewrite Hgone.
  - unfold deleteUserService, db_delete. rewrite Hgone. cbn. f_equal.
    apply filter_all. intros r Hr. apply Hmem in Hr as [_ ->]. reflexivity.
  - intros existing Hex. unfold deleteUserService, db_delete. cbn.
    unfold select_by_id in Hex. rewrite head_take_1 in Hex.
    destruct (List.filter (has_id id) db) as [|r rs]; [discriminate|].
    injection Hex as ->. reflexivity.
Qed.


(** ** The users routes *)

Lemma updateUserService_throw_unchanged date_now id updates db db' e :
  updateUserService date_now id updates db = (db', Throw e) → db' = db.
Proof.
  unfold updateUserService.
  destruct (head (select_by_id db id)) as [existing|] eqn:Hex; [|congruence].
  destruct (Nat.eqb (size (updateData updates)) 0); [discriminate|].
  unfold db_update. fold (assignments_sent date_now updates).
  destruct (Nat.eqb (size _) 0); [congruence|]. cbv zeta.
  fold (table_after_update date_now id updates db).
  destruct (db_rejects _); [congruence|].
  rewrite filter_table_after_update.
  unfold select_by_id in Hex. rewrite head_take_1 in Hex.
  destruct (List.filter (has_id id) db) as [|r rs]; [discriminate|].
  discriminate.
Qed.

Lemma deleteUserService_throw_unchanged id db db' e :
  deleteUserService id db = (db', Throw e) → db' = db.
Proof.
  unfold deleteUserService, db_delete. cbn.
  destruct (List.filter (has_id id) db) as [|r rs] eqn:Hf; cbn; [|discriminate].
  intros [= <- _]. apply filter_all. intros r Hr.
  by rewrite (filter_empty_none _ _ Hf r Hr).
Qed.

(** X10. Without an attached identity, each of the four users routes
    answers 401 [Authentication required] before anything is validated or
    read, and the table is untouched. *)
Theorem guests_get_401 date_now req db :
  req_user req = None →
  let denied := (db, Respond 401 (error_body "Authentication required")) in
  run_route router_get_all date_now req db = denied ∧
  run_route router_get_id date_now req db = denied ∧
  run_route router_put_id date_now req db = denied ∧
  run_route router_delete_id date_now req db = denied.
Proof.
  intros Hg. cbn. unfold requireAuth. rewrite Hg. by repeat split.
Qed.

(** X11. [GET /]: an authenticated caller who is not an admin gets 403; an
    admin gets 200 with the public record of every row, and [count] is the
    number of rows of the table.  The table is not changed. *)
Theorem list_users_admin_only date_now req db (C : user) :
  req_user req = Some C →
  (strict_equal (user_role C) (JStr "admin") = false →
     run_route router_get_all date_now req db =
       (db, Respond 403 (error_body "Forbidden: insufficient permissions"))) ∧
  (strict_equal (user_role C) (JStr "admin") = true →
     run_route router_get_all date_now req db =
       (db, Respond 200
              (JObj {[ "message" := JStr "Successfully retrieved users";
                       "users" := js_array (JObj <$> (columns public_columns <$> db));
                       "count" := JNum (Z.of_nat (length db)) ]}))).
Proof.
  intros Hu. cbn. unfold requireAuth, requireRoles. rewrite Hu, includes_admin.
  split; intros ->; cbn [negb]; [reflexivity|].
  unfold fetchAllUsers, getAllUsers. by rewrite length_fmap.
Qed.

(** X12. [GET /:id]: every authenticated caller, whatever the role and
    whatever the id, reads any user: 400 when the id does not validate, 404
    when no row has it, and otherwise 200 with the public record of the
    first row that has it.  The table is not changed. *)
Theorem read_user_any_authenticated date_now req db (C : user) :
  req_user req = Some C →
  (∀ details, userIdSchema (req_params req) = ParseFail details →
     run_route router_get_id date_now req db = (db, validation_failed details)) ∧
  (∀ id, userIdSchema (req_params req) = ParseOk id →
     (∀ r, r ∈ db → has_id id r = false) →
     run_route router_get_id date_now req db =
       (db, Respond 404 (error_body "User not found"))) ∧
  (∀ id existing, userIdSchema (req_params req) = ParseOk id →
     head (select_by_id db id) = Some existing →
     run_route router_get_id date_now req db =
       (db, Respond 200
              (JObj {[ "message" := JStr "Successfully retrieved user";
                       "user" := JObj (columns public_columns existing) ]}))) ∧
  (run_route router_get_id date_now req db).1 = db.
Proof.
  intros Hu. cbn. unfold requireAuth. rewrite Hu. unfold getUserById.
  split; [|split; [|split]].
  - by intros details ->.
  - intros id -> Hnone. unfold getUserByIdService, select_by_id.
    by rewrite (filter_none _ _ Hnone).
  - intros id existing -> Hex. unfold getUserByIdService.
    destruct (select_by_id db id) as [|r rs]; [discriminate|].
    injection Hex as ->. reflexivity.
  - destruct (userIdSchema (req_params req)); [|reflexivity].
    unfold getUserByIdService. by destruct (head _).
Qed.

(** X13. The order of the checks.  On [PUT /:id] validation comes before
    authorization: an authenticated caller whose id or body does not
    validate gets 400, whoever the caller and whichever the target.  On
    [DELETE /:id] the role guard comes before validation: a caller who is
    not an admin gets 403 even with an invalid id, and an admin with an
    invalid id gets 400. *)
Theorem order_of_checks date_now req db (C : user) :
  req_user req = Some C →
  (∀ details, userIdSchema (req_params req) = ParseFail details →
     run_route router_put_id date_now req db = (db, validation_failed details)) ∧
  (∀ id details, userIdSchema (req_params req) = ParseOk id →
     updateUserSchema (req_body req) = ParseFail details →
     run_route router_put_id date_now req db = (db, validation_failed details)) ∧
  (strict_equal (user_role C) (JStr "admin") = false →
     run_route router_delete_id date_now req db =
       (db, Respond 403 (error_body "Forbidden: insufficient permissions"))) ∧
  (∀ details, strict_equal (user_role C) (JStr "admin") = true →
     userIdSchema (req_params req) = ParseFail details →
     run_route router_delete_id date_now req db = (db, validation_failed details)).
Proof.
  intros Hu. cbn. unfold requireAuth, requireRoles. rewrite Hu, includes_admin.
  unfold updateUser, deleteUser.
  split; [|split; [|split]].
  - by intros details ->.
  - by intros id details -> ->.
  - by intros ->.
  - by intros details -> ->.
Qed.

(** X14. A request to a users route that is not answered with 200 leaves
    the table as it was: denied, invalid, not-found and failed requests have
    no effect.  The two [GET] routes never change the table. *)
Theorem failed_requests_change_nothing date_now req db :
  (run_route router_get_all date_now req db).1 = db ∧
  (run_route router_get_id date_now req db).1 = db ∧
  ((∀ body, (run_route router_put_id date_now req db).2 ≠ Respond 200 body) →
   (run_route router_put_id date_now req db).1 = db) ∧
  ((∀ body, (run_route router_delete_id date_now req db).2 ≠ Respond 200 body) →
   (run_route router_delete_id date_now req db).1 = db).
Proof.
  cbn. unfold requireAuth, requireRoles, getUserById, updateUser, deleteUser.
  destruct (req_user req) as [C|]; [|by repeat split].
  split; [|split; [|split]].
  - by destruct (negb (includes [JStr "admin"] (user_role C))).
  - destruct (userIdSchema (req_params req)); [|reflexivity].
    unfold getUserByIdService. by destruct (head _).
  - destruct (userIdSchema (req_params req)) as [id|]; [|reflexivity].
    destruct (updateUserSchema (req_body req)) as [updates|]; [|reflexivity].
    destruct (negb (strict_equal (Number (user_id C)) (JNum id)) &&
              negb (strict_equal (user_role C) (JStr "admin"))); [reflexivity|].
    destruct (truthy (prop updates "role") &&
              negb (strict_equal (user_role C) (JStr "admin"))); [reflexivity|].
    destruct (updateUserService date_now id updates db) as [db' [u|e]] eqn:Hs;
      cbn [reply].
    + intros H. exfalso. by eapply H.
    + intros _. apply updateUserService_throw_unchanged in Hs.
      by destruct (String.eqb _ _).
  - destruct (negb (includes [JStr "admin"] (user_role C))); [reflexivity|].
    destruct (userIdSchema (req_params req)) as [id|]; [|reflexivity].
    destruct (negb (strict_equal (Number (user_id C)) (JNum id)) &&
              negb (strict_equal (user_role C) (JStr "admin"))); [reflexivity|].
    destruct (deleteUserService id db) as [db' [u|e]] eqn:Hs; cbn [reply].
    + intros H. exfalso. by eapply H.
    + intros _. apply deleteUserService_throw_unchanged in Hs.
      by destruct (String.eqb _ _).
Qed.


Lemma router_put_id_authenticated date_now req db C :
  req_user req = Some C →
  run_route router_put_id date_now req db = updateUser date_now req db.
Proof.
  intros Hu. cbn. unfold requireAuth. rewrite Hu.
  by destruct (updateUser date_now req db) as [db' []].
Qed.

(** X15. What a caller who is not an admin can do through [PUT /:id]: the
    table keeps its length, every row that changes is a row whose id is the
    caller's own (as [Number(req.user.id)]), and no row's [role] changes
    when the validated updates have no [role] or a truthy one. *)
Theorem non_admin_update_confined date_now req db (C : user) :
  req_user req = Some C →
  strict_equal (user_role C) (JStr "admin") = false →
  let db' := (run_route router_put_id date_now req db).1 in
  length db' = length db ∧
  ∀ i r r', db !! i = Some r → db' !! i = Some r' →
    (r' = r ∨ strict_equal (Number (user_id C)) (prop r "id") = true) ∧
    (∀ updates, updateUserSchema (req_body req) = ParseOk updates →
       updates !! "role" = None ∨ truthy (prop updates "role") = true →
       r' !! "role" = r !! "role").
Proof.
  intros Hu Hna. rewrite (router_put_id_authenticated _ _ _ _ Hu).
  unfold updateUser. rewrite Hu, Hna.
  assert (∀ i r r', db !! i = Some r → db !! i = Some r' →
            (r' = r ∨ strict_equal (Number (user_id C)) (prop r "id") = true) ∧
            (∀ updates, updateUserSchema (req_body req) = ParseOk updates →
               updates !! "role" = None ∨ truthy (prop updates "role") = true →
               r' !! "role" = r !! "role")) as Hsame.
  { intros i r r' Hr Hr'. assert (r' = r) as -> by congruence. by split; [left|]. }
  destruct (userIdSchema (req_params req)) as [id|]; [|by (split; [reflexivity | exact Hsame])].
  destruct (updateUserSchema (req_body req)) as [updates|]; [|by (split; [reflexivity | exact Hsame])].
  cbn [negb]. rewrite !andb_true_r.
  destruct (strict_equal (Number (user_id C)) (JNum id)) eqn:Hself; [|by (split; [reflexivity | exact Hsame])].
  cbn [negb]. destruct (truthy (prop updates "role")) eqn:Hrole; [by (split; [reflexivity | exact Hsame])|].
  pose proof (updateUserService_table date_now id updates db) as Htable.
  destruct (updateUserService date_now id updates db) as [db' result].
  cbn [fst snd] in *. destruct Htable as [-> | ->]; [by (split; [reflexivity | exact Hsame])|].
  split; [apply length_fmap|].
  intros i r r' Hr Hr'. rewrite list_lookup_fmap, Hr in Hr'. cbn in Hr'.
  injection Hr' as <-.
  destruct (has_id id r) eqn:Hid; [|by split; [left|]].
  split.
  - right. unfold has_id in Hid. apply strict_equal_num in Hid. by rewrite Hid.
  - intros updates' [= <-] [Hnone | Htruthy]; [|congruence].
    rewrite lookup_union_r; [reflexivity|].
    rewrite assignments_sent_allowed by (unfold allowedFields; in_list).
    by rewrite Hnone.
Qed.

(** ** The authentication service *)

Lemma select_by_email_none db email :
  (∀ r, r ∈ db → has_email email r = false) → select_by_email db email = [].
Proof. intros H. unfold select_by_email. by rewrite (filter_none _ _ H). Qed.

Lemma select_by_email_appended db email row :
  (∀ r, r ∈ db → has_email email r = false) → has_email email row = true →
  select_by_email (db ++ [row]) email = [row].
Proof.
  intros H Hrow. unfold select_by_email.
  rewrite List.filter_app, (filter_none _ _ H). cbn. by rewrite Hrow.
Qed.

Lemma inserted_row serial date_now name email passwordHash role :
  filter (fun kv : string * jsval => is_undefined kv.2 = false)
         ({[ "name" := JStr name; "email" := JStr email;
             "password" := JStr passwordHash;
             "role" := JStr (default "user" role) ]} : jsobj) ∪
  {[ "id" := JNum serial; "role" := JStr "user";
     "created_at" := JDate date_now; "updated_at" := JDate date_now ]} =
  created_row serial date_now name email passwordHash role.
Proof. reflexivity. Qed.

(** X16. [createUser] fails without touching the table: with
    [User already exists] when a row has the email, with [Error hashing]
    when bcrypt throws, and, whatever the error, the table after a throw is
    the table before. *)
Theorem createUser_failures entropy serial date_now name email password role db :
  (∀ r, r ∈ db → has_email email r = true →
     createUser entropy serial date_now name email password role db =
       (db, Throw (Error "User already exists"))) ∧
  (∀ e, (∀ r, r ∈ db → has_email email r = false) →
     bcrypt_hash entropy password = Throw e →
     createUser entropy serial date_now name email password role db =
       (db, Throw (Error "Error hashing"))) ∧
  (∀ db' e, createUser entropy serial date_now name email password role db =
              (db', Throw e) → db' = db).
Proof.
  split; [|split].
  - intros r Hr He. unfold createUser, select_by_email.
    assert (In r (List.filter (has_email email) db)) as Hin
      by (apply filter_In; split; [by apply list_elem_of_In | exact He]).
    by destruct (List.filter (has_email email) db).
  - intros e Hnone He. unfold createUser, hashPassword, try_catch.
    by rewrite (select_by_email_none _ _ Hnone), He.
  - intros db' e. unfold createUser.
    destruct (0 <? length (select_by_email db email))%nat; [congruence|].
    destruct (hashPassword entropy password); [|congruence].
    unfold db_insert. cbv zeta. destruct (db_rejects _); [congruence|discriminate].
Qed.

(** X17. When no row has the email, bcrypt returns a hash and the database
    accepts the row, [createUser] appends one row after the rows that were
    there; the row stores the hash in [password], takes its id from the
    sequence and the role given (['user'] when none is), and the record
    returned has the id, name, email, role and creation date and no
    [password]. *)
Theorem createUser_stores_hash entropy serial date_now name email password role db h :
  (∀ r, r ∈ db → has_email email r = false) →
  bcrypt_hash entropy password = Return h →
  db_rejects (db ++ [created_row serial date_now name email h role])%list = false →
  let row := created_row serial date_now name email h role in
  createUser entropy serial date_now name email password role db =
    ((db ++ [row])%list, Return (columns created_columns row)) ∧
  row !! "password" = Some (JStr h) ∧
  columns created_columns row =
    {[ "id" := JNum serial; "name" := JStr name; "email" := JStr email;
       "role" := JStr (default "user" role); "created_at" := JDate date_now ]} ∧
  columns created_columns row !! "password" = None.
Proof.
  intros Hnone Hh Hok row.
  split; [|split; [|split]]; [|reflexivity..].
  unfold createUser, hashPassword, try_catch, db_insert.
  rewrite (select_by_email_none _ _ Hnone), Hh. cbv zeta.
  rewrite inserted_row, Hok. reflexivity.
Qed.

(** X18. Sign-up then sign-in: after a successful [createUser], when bcrypt
    accepts the password against the hash it made, [authenticateUser] with
    the same email and password returns the very record that [createUser]
    returned. *)
Theorem created_user_authenticates entropy serial date_now name email password
    role db h db' created :
  bcrypt_hash entropy password = Return h →
  bcrypt_compare password h = Return true →
  createUser entropy serial date_now name email password role db =
    (db', Return created) →
  authenticateUser email password db' = Return created.
Proof.
  intros Hh Hc. unfold createUser.
  destruct (0 <? length (select_by_email db email))%nat eqn:Hdup; [discriminate|].
  unfold hashPassword, try_catch. rewrite Hh. unfold db_insert. cbv zeta.
  rewrite inserted_row. destruct (db_rejects _); [discriminate|].
  intros [= <- <-].
  assert (∀ r, r ∈ db → has_email email r = false) as Hnone.
  { apply filter_empty_none. unfold select_by_email in Hdup.
    destruct (List.filter (has_email email) db); [reflexivity|discriminate]. }
  unfold authenticateUser.
  rewrite (select_by_email_appended _ _ _ Hnone)
    by (unfold has_email, prop, created_row; simplify_map_eq; cbn;
        apply String.eqb_refl).
  cbn [head]. unfold comparePassword, try_catch.
  replace (prop (created_row serial date_now name email h role) "password")
    with (JStr h) by reflexivity.
  by rewrite Hc.
Qed.

(** X19. [authenticateUser] throws [User not found] when no row has the
    email.  For the first row that has it, it throws [Invalid credentials]
    when bcrypt finds no match, [Error comparing password] when bcrypt
    throws, and returns the row's id, name, email, role and creation date,
    without the [password], on a match. *)
Theorem authenticateUser_outcomes email password db :
  ((∀ r, r ∈ db → has_email email r = false) →
     authenticateUser email password db = Throw (Error "User not found")) ∧
  (∀ found h,
     head (select_by_email db email) = Some found →
     prop found "password" = JStr h →
     (bcrypt_compare password h = Return false →
        authenticateUser email password db = Throw (Error "Invalid credentials")) ∧
     (∀ e, bcrypt_compare password h = Throw e →
        authenticateUser email password db =
          Throw (Error "Error comparing password")) ∧
     (bcrypt_compare password h = Return true →
        authenticateUser email password db = Return (columns created_columns found) ∧
        columns created_columns found !! "password" = None)).
Proof.
  split.
  - intros Hnone. unfold authenticateUser. by rewrite (select_by_email_none _ _ Hnone).
  - intros found h Hf Hp. unfold authenticateUser, comparePassword, try_catch.
    rewrite Hf, Hp. split; [|split].
    + by intros ->.
    + by intros e ->.
    + intros ->. split; [reflexivity|].
      apply columns_lookup_notin. unfold created_columns.
      rewrite !not_elem_of_cons. repeat split; (discriminate || apply not_elem_of_nil).
Qed.

End Acquisitions.

(** * The statements on the sample data *)

Lemma guest_fallback_witness :
  let absent := sample_request None None "7" ∅ in
  let stale :=
    sample_request (Some {[ "token" := sample_token_of sample_claims ]}) None "7" ∅ in
  cookie_token absent = None ∧
  cookie_token stale = Some (sample_token_of sample_claims) ∧
  jwttoken_verify sample_hmac sample_env 90000 (sample_token_of sample_claims) =
    Throw (Error "failed to authenticate token") ∧
  requireAuth (attachUserFromToken sample_hmac sample_env 90000 absent).1 =
  requireAuth (attachUserFromToken sample_hmac sample_env 90000 stale).1.
Proof.
  intros absent stale.
  assert (cookie_token absent = None) as H1 by reflexivity.
  assert (cookie_token stale = Some (sample_token_of sample_claims)) as H2
    by reflexivity.
  assert (jwttoken_verify sample_hmac sample_env 90000 (sample_token_of sample_claims) =
          Throw (Error "failed to authenticate token")) as H3
    by (vm_compute; reflexivity).
  split; [exact H1|]. split; [exact H2|]. split; [exact H3|].
  exact (proj1 (proj2 (proj2 (proj2 (proj2
           (guest_fallback sample_hmac sample_env 90000 absent stale _ _ H1 H2 H3)))))).
Defined.

Lemma verify_sign_identity_witness :
  3600 < 0 + 86400 ∧
  ∃ token decoded,
    jwttoken_sign sample_hmac sample_env 0 (identity_claims (sample_user 7 "user")) =
      Return token ∧
    jwttoken_verify sample_hmac sample_env 3600 token = Return decoded ∧
    prop decoded "id" = JNum 7 ∧ prop decoded "role" = JStr "user".
Proof.
  assert (3600 < 0 + 86400) as H by reflexivity.
  split; [exact H|].
  destruct (verify_sign_identity sample_hmac sample_env 0 3600 (sample_user 7 "user") H)
    as (token & decoded & Hs & Hv & _ & Hid & _ & Hrole & _).
  exists token, decoded. repeat split; assumption.
Defined.

Lemma verify_expired_generic_witness :
  jws_payload (sample_jws sample_claims) !! "exp" = Some (JNum 86400) ∧
  86400 ≤ 90000 ∧
  jwttoken_verify sample_hmac sample_env 90000 (sample_token_of sample_claims) =
    Throw (Error "failed to authenticate token") ∧
  jwttoken_verify sample_hmac sample_env 90000 (Text "not.a.token") =
    jwttoken_verify sample_hmac sample_env 90000 (sample_token_of sample_claims).
Proof.
  assert (jws_payload (sample_jws sample_claims) !! "exp" = Some (JNum 86400)) as H1
    by reflexivity.
  assert (86400 ≤ 90000) as H2 by discriminate.
  split; [exact H1|]. split; [exact H2|].
  destruct (verify_expired_generic sample_hmac sample_env 90000 _ _ H1 H2) as [Ha Hb].
  split; [exact Ha|].
  apply (Hb (Text "not.a.token") (JsonWebTokenError "jwt malformed")). reflexivity.
Defined.

Lemma role_defaults_to_user_witness :
  let token := sample_token_of sample_roleless_claims in
  let req := sample_request (Some {[ "token" := token ]}) None "7" ∅ in
  cookie_token req = Some token ∧
  jwttoken_verify sample_hmac sample_env 10 token = Return sample_roleless_claims ∧
  truthy (prop sample_roleless_claims "role") = false ∧
  ∃ u, attachUserFromToken sample_hmac sample_env 10 req = (set_user (Some u) req, Next) ∧
       user_role u = JStr "user".
Proof.
  intros token req.
  assert (cookie_token req = Some token) as H1 by reflexivity.
  assert (jwttoken_verify sample_hmac sample_env 10 token = Return sample_roleless_claims)
    as H2 by (vm_compute; reflexivity).
  assert (truthy (prop sample_roleless_claims "role") = false) as H3 by reflexivity.
  split; [exact H1|]. split; [exact H2|]. split; [exact H3|].
  destruct (role_defaults_to_user sample_hmac sample_env 10 req token _ H1 H2 H3)
    as (u & Ha & Hr & _).
  exists u. split; assumption.
Defined.


Lemma delete_admin_only_witness :
  let del := router_delete_id sample_userIdSchema sample_StringToNumber in
  (* user 7 deletes the own record: refused by the role guard *)
  run_route del 5 (sample_request None (Some (sample_user 7 "user")) "7" ∅) sample_db =
    (sample_db, Respond 403 (error_body "Forbidden: insufficient permissions")) ∧
  (* admin 1 deletes user 9 *)
  (run_route del 5 (sample_request None (Some (sample_user 1 "admin")) "9" ∅) sample_db).1 =
    [sample_row 7 "ann" "user"].
Proof.
  intros del. split.
  - refine (proj1 (delete_admin_only sample_userIdSchema sample_StringToNumber 5
                     (sample_request None (Some (sample_user 7 "user")) "7" ∅)
                     sample_db 7 (sample_user 7 "user") _ _) _); reflexivity.
  - rewrite (proj1 (proj2 (delete_admin_only sample_userIdSchema sample_StringToNumber 5
                     (sample_request None (Some (sample_user 1 "admin")) "9" ∅)
                     sample_db 9 (sample_user 1 "admin") eq_refl eq_refl)) eq_refl).
    reflexivity.
Defined.

Lemma role_rate_limit_witness :
  let quiet := fun _ : request => false in
  (* a guest, six requests from one address *)
  let req := sample_request None None "7" ∅ in
  let six := [(100, req); (110, req); (120, req); (130, req); (140, req); (160, req)] in
  (* an administrator, twenty-one requests from twenty-one addresses *)
  let roaming := (100, (sample_visit 0).2) :: sample_roaming 1 20 in
  caller_requests quiet quiet None "203.0.113.5" 100 six ∧
  caller_requests quiet quiet (Some sample_admin) "" 100 roaming ∧
  (admit_all quiet quiet None six ∅).2 !! 4%nat =
    Some {| allow := true; reason := none |} ∧
  (admit_all quiet quiet None six ∅).2 !! 5%nat =
    Some {| allow := false; reason := rate_limit |} ∧
  (admit_all quiet quiet (Some sample_admin) roaming ∅).2 !! 19%nat =
    Some {| allow := true; reason := none |} ∧
  (admit_all quiet quiet (Some sample_admin) roaming ∅).2 !! 20%nat =
    Some {| allow := false; reason := rate_limit |}.
Proof.
  intros quiet req six roaming.
  assert (caller_requests quiet quiet None "203.0.113.5" 100 six) as Hguest.
  { unfold caller_requests, six.
    repeat (constructor;
            [split; [reflexivity | split; [reflexivity | split; [reflexivity |
             split; discriminate]]] |]).
    constructor. }
  assert (caller_requests quiet quiet (Some sample_admin) "" 100 roaming) as Hadmin.
  { unfold caller_requests, roaming, sample_roaming. cbn [seq fmap list_fmap].
    repeat (constructor;
            [split; [discriminate | split; [reflexivity | split; [reflexivity |
             split; discriminate]]] |]).
    constructor. }
  assert (live_counter 100 ((∅ : gmap (Z + string) RateWindowCounter) !!
                             inr "203.0.113.5") =
          {| window_start := 100; count := 0 |}) as Hfresh by reflexivity.
  assert (live_counter 100 ((∅ : gmap (Z + string) RateWindowCounter) !!
                             inl (subject_id sample_admin)) =
          {| window_start := 100; count := 0 |}) as Hfresh' by reflexivity.
  split; [exact Hguest|]. split; [exact Hadmin|].
  destruct (role_rate_limit quiet quiet None "203.0.113.5" 100 req (tail six) ∅
              Hfresh Hguest) as (Hlen & Hdec & _).
  destruct (role_rate_limit quiet quiet (Some sample_admin) "" 100
              (sample_visit 0).2 (sample_roaming 1 20) ∅
              Hfresh' Hadmin) as (Hlen' & Hdec' & _).
  cbv zeta in Hlen, Hdec, Hlen', Hdec'.
  change ((100, req) :: tail six) with six in Hlen, Hdec.
  change ((100, (sample_visit 0).2) :: sample_roaming 1 20) with roaming in Hlen', Hdec'.
  split; [|split; [|split]].
  - destruct ((admit_all quiet quiet None six ∅).2 !! 4%nat) as [d|] eqn:E.
    + rewrite (Hdec _ _ E). reflexivity.
    + apply lookup_ge_None in E. rewrite Hlen in E. cbn in E. lia.
  - destruct ((admit_all quiet quiet None six ∅).2 !! 5%nat) as [d|] eqn:E.
    + rewrite (Hdec _ _ E). reflexivity.
    + apply lookup_ge_None in E. rewrite Hlen in E. cbn in E. lia.
  - destruct ((admit_all quiet quiet (Some sample_admin) roaming ∅).2 !! 19%nat)
      as [d|] eqn:E.
    + rewrite (Hdec' _ _ E). reflexivity.
    + apply lookup_ge_None in E. rewrite Hlen' in E. cbn in E. lia.
  - destruct ((admit_all quiet quiet (Some sample_admin) roaming ∅).2 !! 20%nat)
      as [d|] eqn:E.
    + rewrite (Hdec' _ _ E). reflexivity.
    + apply lookup_ge_None in E. rewrite Hlen' in E. cbn in E. lia.
Defined.

Lemma updateUser_frame_witness :
  let stray : jsobj := {[ "password" := JStr "pwned"; "id" := JNum 1 ]} in
  let renamed : jsobj := {[ "name" := JStr "eve"; "password" := JStr "pwned" ]} in
  (* no allowed field: nothing is written *)
  updateUserService (fun _ => false) 5 7 stray sample_db =
    (sample_db, Return (columns public_columns (sample_row 7 "ann" "user"))) ∧
  (* a new name together with a stray password: the password stays *)
  ∀ r', (updateUserService (fun _ => false) 5 7 renamed sample_db).1 !! 0%nat = Some r' →
        r' !! "password" = Some (JStr "$2b$10$hash").
Proof.
  intros stray renamed. split.
  - apply (proj2 (proj2 (updateUser_frame (fun _ => false) 5 7 stray sample_db))
             (sample_row 7 "ann" "user")); [reflexivity|].
    intros f Hf. unfold allowedFields in Hf.
    apply elem_of_cons in Hf as [-> | Hf]; [reflexivity|].
    apply elem_of_cons in Hf as [-> | Hf]; [reflexivity|].
    apply elem_of_cons in Hf as [-> | Hf]; [reflexivity|].
    by apply elem_of_nil in Hf.
  - intros r' Hr'.
    destruct (proj1 (proj2 (updateUser_frame (fun _ => false) 5 7 renamed sample_db))
                0%nat (sample_row 7 "ann" "user") r' eq_refl Hr')
      as (_ & _ & Hp & _).
    rewrite Hp. reflexivity.
Defined.

(** * Where the code departs from the specification *)

(** C3, the claim as written fails: at time 90000 the sample token, validly
    signed and expired since 86400, is rejected by the package with its
    expiry error, and a text that is no token with its malformed error; yet
    [jwttoken.verify] throws the same error for both, so no reading of its
    result tells an expired token from a malformed one. *)
Lemma expired_and_malformed_same_error :
  let expired := sample_token_of sample_claims in
  let garbage := Text "not.a.token" in
  prop sample_claims "exp" = JNum 86400 ∧ 86400 < 90000 ∧
  jwt_verify sample_hmac 90000 expired (JWT_SECRET sample_env) =
    Throw (TokenExpiredError "jwt expired") ∧
  jwt_verify sample_hmac 90000 garbage (JWT_SECRET sample_env) =
    Throw (JsonWebTokenError "jwt malformed") ∧
  jwttoken_verify sample_hmac sample_env 90000 expired =
    Throw (Error "failed to authenticate token") ∧
  jwttoken_verify sample_hmac sample_env 90000 garbage =
    Throw (Error "failed to authenticate token") ∧
  ¬ ∃ kind : completion jsobj → TokenErrorKind,
      kind (jwttoken_verify sample_hmac sample_env 90000 expired) = Expired ∧
      kind (jwttoken_verify sample_hmac sample_env 90000 garbage) = Malformed.
Proof.
  intros expired garbage.
  assert (jwttoken_verify sample_hmac sample_env 90000 expired =
          Throw (Error "failed to authenticate token")) as He
    by (vm_compute; reflexivity).
  assert (jwttoken_verify sample_hmac sample_env 90000 garbage =
          Throw (Error "failed to authenticate token")) as Hg
    by (vm_compute; reflexivity).
  split; [reflexivity|]. split; [reflexivity|].
  split; [vm_compute; reflexivity|]. split; [vm_compute; reflexivity|].
  split; [exact He|]. split; [exact Hg|].
  intros [kind [H1 H2]]. rewrite He in H1. rewrite Hg in H2. congruence.
Qed.

(** C5, the claim as written fails: user 7, not an admin, asks to delete
    user 7.  The caller is the target, and the controller on its own would
    proceed, but the route answers 403 from [requireRoles('admin')] and the
    table is left as it was. *)
Lemma self_delete_denied_by_role_guard :
  let req := sample_request None (Some (sample_user 7 "user")) "7" ∅ in
  sample_userIdSchema (req_params req) = ParseOk 7 ∧
  strict_equal (Number sample_StringToNumber (user_id (sample_user 7 "user"))) (JNum 7) = true ∧
  strict_equal (user_role (sample_user 7 "user")) (JStr "admin") = false ∧
  run_route (router_delete_id sample_userIdSchema sample_StringToNumber) 5 req sample_db =
    (sample_db, Respond 403 (error_body "Forbidden: insufficient permissions")) ∧
  (deleteUser sample_userIdSchema sample_StringToNumber 5 req sample_db).1 =
    [sample_row 9 "bob" "user"].
Proof. repeat split; vm_compute; reflexivity. Qed.


(** * The further properties on the sample data *)

(** Case analysis on a row of [sample_db]. *)
Ltac sample_db_row H :=
  unfold sample_db in H;
  apply elem_of_cons in H as [-> | H];
  [|apply elem_of_cons in H as [-> | H]; [|by apply elem_of_nil in H]].

Lemma signed_cookie_attaches_witness :
  let token := sample_token_of sample_claims in
  let req := sample_request (Some {[ "token" := token ]}) None "7" ∅ in
  jwttoken_sign sample_hmac sample_env 0 (identity_claims (sample_user 7 "user")) =
    Return token ∧
  3600 < 0 + 86400 ∧
  attachUserFromToken sample_hmac sample_env 3600 req =
    (set_user (Some (sample_user 7 "user")) req, Next).
Proof.
  intros token req.
  assert (jwttoken_sign sample_hmac sample_env 0 (identity_claims (sample_user 7 "user")) =
          Return token) as H1 by (vm_compute; reflexivity).
  assert (3600 < 0 + 86400) as H2 by reflexivity.
  split; [exact H1|]. split; [exact H2|].
  exact (signed_cookie_attaches sample_hmac sample_env 0 3600 req
           (sample_user 7 "user") token H1 eq_refl H2 eq_refl).
Defined.

Lemma identity_needs_valid_token_witness :
  let token := sample_token_of sample_claims in
  let req := sample_request (Some {[ "token" := token ]}) None "7" ∅ in
  req_user (attachUserFromToken sample_hmac sample_env 3600 req).1 =
    Some (sample_user 7 "user") ∧
  ∃ t, cookie_token req = Some (Compact t) ∧
       jws_signature t =
         Some (sample_hmac (jws_alg t) (JWT_SECRET sample_env) (jws_payload t)).
Proof.
  intros token req.
  assert (req_user (attachUserFromToken sample_hmac sample_env 3600 req).1 =
          Some (sample_user 7 "user")) as H1 by (vm_compute; reflexivity).
  split; [exact H1|].
  destruct (identity_needs_valid_token sample_hmac sample_env 3600 req _ H1)
    as (t & Hc & Hs & _).
  exists t. split; assumption.
Defined.

Lemma missing_user_not_found_witness :
  (∀ r, r ∈ sample_db → has_id 5 r = false) ∧
  getUserByIdService 5 sample_db = Return None ∧
  deleteUserService 5 sample_db = (sample_db, Throw (Error "User not found")).
Proof.
  assert (∀ r, r ∈ sample_db → has_id 5 r = false) as H
    by (intros r Hr; sample_db_row Hr; reflexivity).
  split; [exact H|].
  destruct (missing_user_not_found (fun _ => false) 0 5 ∅ sample_db H) as (Hg & _ & Hd).
  split; assumption.
Defined.

Lemma updateUser_applies_witness :
  let updates : jsobj := {[ "name" := JStr "eve" ]} in
  head (select_by_id sample_db 7) = Some (sample_row 7 "ann" "user") ∧
  ∃ updated,
    updateUserService (fun _ => false) 5 7 updates sample_db =
      (table_after_update 5 7 updates sample_db, Return updated) ∧
    updated !! "name" = Some (JStr "eve") ∧
    getUserByIdService 7 (table_after_update 5 7 updates sample_db) =
      Return (Some updated).
Proof.
  intros updates.
  assert (head (select_by_id sample_db 7) = Some (sample_row 7 "ann" "user")) as H1
    by reflexivity.
  assert ("name" ∈ allowedFields) as H2 by (apply elem_of_cons; left; reflexivity).
  split; [exact H1|].
  destruct (updateUser_applies (fun _ => false) 5 7 updates sample_db _ "name"
              (JStr "eve") H1 H2 eq_refl eq_refl eq_refl)
    as (updated & Hs & Hn & _ & _ & _ & Hg).
  exists updated. repeat split; assumption.
Defined.

Lemma guests_get_401_witness :
  let req := sample_request None None "7" {[ "name" := JStr "eve" ]} in
  req_user req = None ∧
  run_route (router_delete_id sample_userIdSchema sample_StringToNumber) 5 req sample_db =
    (sample_db, Respond 401 (error_body "Authentication required")).
Proof.
  intros req. split; [reflexivity|].
  exact (proj2 (proj2 (proj2
           (guests_get_401 (fun _ => false) sample_userIdSchema sample_updateUserSchema
              sample_StringToNumber 5 req sample_db eq_refl)))).
Defined.

Lemma list_users_admin_only_witness :
  let asked (r : string) := sample_request None (Some (sample_user 1 r)) "1" ∅ in
  run_route router_get_all 5 (asked "user") sample_db =
    (sample_db, Respond 403 (error_body "Forbidden: insufficient permissions")) ∧
  ∃ body, run_route router_get_all 5 (asked "admin") sample_db =
            (sample_db, Respond 200 (JObj body)) ∧
          body !! "count" = Some (JNum 2).
Proof.
  intros asked. split.
  - exact (proj1 (list_users_admin_only 5 (asked "user") sample_db _ eq_refl) eq_refl).
  - eexists. split.
    + exact (proj2 (list_users_admin_only 5 (asked "admin") sample_db _ eq_refl) eq_refl).
    + reflexivity.
Defined.

Lemma read_user_any_authenticated_witness :
  (* user 7 reads user 9 *)
  let req := sample_request None (Some (sample_user 7 "user")) "9" ∅ in
  req_user req = Some (sample_user 7 "user") ∧
  sample_userIdSchema (req_params req) = ParseOk 9 ∧
  run_route (router_get_id sample_userIdSchema) 5 req sample_db =
    (sample_db,
     Respond 200 (JObj {[ "message" := JStr "Successfully retrieved user";
                          "user" := JObj (columns public_columns
                                            (sample_row 9 "bob" "user")) ]})).
Proof.
  intros req. split; [reflexivity|]. split; [reflexivity|].
  exact (proj1 (proj2 (proj2
           (read_user_any_authenticated sample_userIdSchema 5 req sample_db _ eq_refl)))
           9 (sample_row 9 "bob" "user") eq_refl eq_refl).
Defined.

Lemma order_of_checks_witness :
  (* user 7, with an id that is no number *)
  let req := sample_request None (Some (sample_user 7 "user")) "abc" ∅ in
  req_user req = Some (sample_user 7 "user") ∧
  sample_userIdSchema (req_params req) = ParseFail (JStr "id") ∧
  run_route (router_put_id (fun _ => false) sample_userIdSchema sample_updateUserSchema
                           sample_StringToNumber) 5 req sample_db =
    (sample_db, validation_failed (JStr "id")) ∧
  run_route (router_delete_id sample_userIdSchema sample_StringToNumber) 5 req sample_db =
    (sample_db, Respond 403 (error_body "Forbidden: insufficient permissions")).
Proof.
  intros req. split; [reflexivity|]. split; [reflexivity|].
  destruct (order_of_checks (fun _ => false) sample_userIdSchema sample_updateUserSchema
              sample_StringToNumber 5 req sample_db _ eq_refl) as (Hput & _ & Hdel & _).
  split; [exact (Hput _ eq_refl) | exact (Hdel eq_refl)].
Defined.

Lemma non_admin_update_confined_witness :
  (* user 7 renames the own record *)
  let req := sample_request None (Some (sample_user 7 "user")) "7"
                            {[ "name" := JStr "eve" ]} in
  let db' := (run_route (router_put_id (fun _ => false) sample_userIdSchema
                           sample_updateUserSchema sample_StringToNumber)
                        5 req sample_db).1 in
  req_user req = Some (sample_user 7 "user") ∧
  strict_equal (user_role (sample_user 7 "user")) (JStr "admin") = false ∧
  length db' = 2%nat ∧
  ∀ r', db' !! 1%nat = Some r' → r' = sample_row 9 "bob" "user".
Proof.
  intros req db'. split; [reflexivity|]. split; [reflexivity|].
  destruct (non_admin_update_confined (fun _ => false) sample_userIdSchema
              sample_updateUserSchema sample_StringToNumber 5 req sample_db
              (sample_user 7 "user") eq_refl eq_refl) as [Hlen Hrows].
  split; [exact Hlen|].
  intros r' Hr'.
  destruct (Hrows 1%nat (sample_row 9 "bob" "user") r' eq_refl Hr') as [[-> | Hown] _];
    [reflexivity | discriminate Hown].
Defined.

Lemma createUser_failures_witness :
  createUser (fun _ => false) sample_bcrypt_hash "salt" 10 5 "ann" "ann@example.com"
             "hunter2" None sample_db =
    (sample_db, Throw (Error "User already exists")).
Proof.
  apply (proj1 (createUser_failures (fun _ => false) sample_bcrypt_hash "salt" 10 5
                  "ann" "ann@example.com" "hunter2" None sample_db)
               (sample_row 7 "ann" "user")).
  - apply elem_of_cons. left. reflexivity.
  - reflexivity.
Defined.

Lemma createUser_stores_hash_witness :
  let row := created_row 10 5 "cy" "cy@example.com" "$2b$10$hunter2" None in
  (∀ r, r ∈ sample_db → has_email "cy@example.com" r = false) ∧
  createUser (fun _ => false) sample_bcrypt_hash "salt" 10 5 "cy" "cy@example.com"
             "hunter2" None sample_db =
    ((sample_db ++ [row])%list, Return (columns created_columns row)) ∧
  row !! "role" = Some (JStr "user").
Proof.
  intros row.
  assert (∀ r, r ∈ sample_db → has_email "cy@example.com" r = false) as H
    by (intros r Hr; sample_db_row Hr; reflexivity).
  split; [exact H|]. split; [|reflexivity].
  exact (proj1 (createUser_stores_hash (fun _ => false) sample_bcrypt_hash "salt" 10 5
                  "cy" "cy@example.com" "hunter2" None sample_db "$2b$10$hunter2"
                  H eq_refl eq_refl)).
Defined.

Lemma created_user_authenticates_witness :
  let row := created_row 10 5 "cy" "cy@example.com" "$2b$10$hunter2" None in
  createUser (fun _ => false) sample_bcrypt_hash "salt" 10 5 "cy" "cy@example.com"
             "hunter2" None sample_db =
    ((sample_db ++ [row])%list, Return (columns created_columns row)) ∧
  authenticateUser sample_bcrypt_compare "cy@example.com" "hunter2"
                   (sample_db ++ [row])%list =
    Return (columns created_columns row).
Proof.
  intros row.
  assert (createUser (fun _ => false) sample_bcrypt_hash "salt" 10 5 "cy"
                     "cy@example.com" "hunter2" None sample_db =
          ((sample_db ++ [row])%list, Return (columns created_columns row))) as H
    by reflexivity.
  split; [exact H|].
  exact (created_user_authenticates (fun _ => false) sample_bcrypt_hash
           sample_bcrypt_compare "salt" 10 5 "cy" "cy@example.com" "hunter2" None
           sample_db "$2b$10$hunter2" _ _ eq_refl eq_refl H).
Defined.

Lemma authenticateUser_outcomes_witness :
  authenticateUser sample_bcrypt_compare "ann@example.com" "wrong" sample_db =
    Throw (Error "Invalid credentials") ∧
  authenticateUser sample_bcrypt_compare "zed@example.com" "wrong" sample_db =
    Throw (Error "User not found").
Proof.
  destruct (authenticateUser_outcomes sample_bcrypt_compare "ann@example.com" "wrong"
              sample_db) as [_ Hfound].
  destruct (authenticateUser_outcomes sample_bcrypt_compare "zed@example.com" "wrong"
              sample_db) as [Hnone _].
  split.
  - exact (proj1 (Hfound (sample_row 7 "ann" "user") "$2b$10$hash" eq_refl eq_refl)
             eq_refl).
  - apply Hnone. intros r Hr. sample_db_row Hr; reflexivity.
Defined.
